(** * codap-phone: the cache-backed access layer and its notification router

    A shallow embedding of [index.ts] (the context/case access functions and
    the collection reconciler [updateContextWithDataSet]) and of
    [endpoint.ts] (the handler of host-initiated messages), with the
    properties of the design document stated over it.

    Asynchronous code is written in a state-and-outcome monad: the state is
    the module-level cache together with the log of everything the code
    sends out (calls on the phone, listener invocations, acknowledgements);
    the outcome is the settlement of the returned promise, or the exception
    thrown by synchronous code. *)

From Stdlib Require Import ZArith Lia Ascii.
From stdpp Require Import base option list gmap strings pretty.

Set Default Proof Using "Type".

(** ** Data ([types.ts]) *)

(** A scalar held by an attribute of a case (the [unknown] of
    [Record<string, unknown>]). *)
Inductive Value : Type :=
| VNum (n : Z)
| VStr (s : string)
| VBool (b : bool)
| VNull.

#[global] Instance Value_eq_dec : EqDecision Value.
Proof. solve_decision. Defined.

(** [Record<string, unknown>]: an object used as a map from attribute names
    to values. *)
Abbreviation DataItem := (gmap string Value).

Module ReturnedCase.
(** The fields of a returned case that the code reads.  [parent] is
    [None] where the source sees [null] or [undefined]. *)
Record t : Type := mk { parent : option Z; values : DataItem }.
End ReturnedCase.

Module Collection.
(** Modelled from the spec: the declaration of [Collection] lives in
    [types.ts], which is not among the sources embedded here.  A collection
    has a name, an ordered sequence of attribute names, and labels; the
    attribute and label fields are optional in a request (the literal
    [{ name, labels: {} }] of [updateContextWithDataSet] has no [attrs]). *)
Record t : Type :=
  mk { name : string;
       attrs : option (list string);
       labels : option (gmap string string) }.

#[global] Instance eq_dec : EqDecision t.
Proof. solve_decision. Defined.
End Collection.

Module DataContext.
Record t : Type := mk { title : string; collections : list Collection.t }.
End DataContext.

Module Dataset.
Record t : Type :=
  mk { collections : list Collection.t; records : list DataItem }.
End Dataset.

(** The members of [CodapActions] the code names. *)
Inductive CodapActions : Type := Create | Get | Update | Notify.

#[global] Instance CodapActions_eq_dec : EqDecision CodapActions.
Proof. solve_decision. Defined.

(** [new Error(message)], and the [TypeError] the engine throws when a
    property of [undefined] or [null] is read. *)
Inductive JsError : Type :=
| Error (message : string)
| TypeError.

(** ** Resources and requests ([resource.ts], [actions.ts])

    The builders of resource strings and of request payloads live in
    modules that are not embedded here; a request is kept as the call that
    builds it. *)
Inductive Resource : Type :=
| resourceFromContext (context : string)
| caseById (context : string) (id : Z).

Inductive CodapRequest : Type :=
| Request (action : CodapActions) (resource : Resource)
| Actions_deleteAllCases (context collection : string)
| Actions_createCollections (context : string) (collections : list Collection.t)
| Actions_deleteCollection (context collection : string)
| Actions_insertDataItems (context : string) (data : list DataItem).

Record CodapResponse : Type := { success : bool }.

Module GetContextResponse.
Record t : Type := mk { success : bool; values : DataContext.t }.
End GetContextResponse.

Module GetCaseResponse.
(** [response.values.case] is the field [case] here. *)
Record t : Type := mk { success : bool; case : ReturnedCase.t }.
End GetCaseResponse.

(** ** The cache ([cache.ts]) *)

Module Cache.
(** Modelled from the spec: [cache.ts] is not among the sources
    embedded here.  Three independent keyed stores: context name to context
    schema, case id to case (not scoped by context name), context name to
    the flattened record set.  [set] overwrites, [get] returns the entry or
    nothing, invalidating a context drops its schema entry and its
    record-set entry, invalidating a case drops that case entry only. *)
Record t : Type :=
  mk { contexts : gmap string DataContext.t;
       cases : gmap Z ReturnedCase.t;
       records : gmap string (list DataItem) }.

Definition empty : t := mk ∅ ∅ ∅.

(** Modelled from the spec: [get] on the context-schema store. *)
Definition getContext (context : string) (c : t) : option DataContext.t :=
  contexts c !! context.

(** Modelled from the spec: [set] on the context-schema store; it
    overwrites. *)
Definition setContext (context : string) (v : DataContext.t) (c : t) : t :=
  mk (<[context := v]> (contexts c)) (cases c) (records c).

(** Modelled from the spec: invalidating a context removes its schema
    entry and its record-set entry, and nothing else. *)
Definition invalidateContext (context : string) (c : t) : t :=
  mk (delete context (contexts c)) (cases c) (delete context (records c)).

(** Modelled from the spec: [get] on the case store, keyed by case id. *)
Definition getCase (id : Z) (c : t) : option ReturnedCase.t :=
  cases c !! id.

(** Modelled from the spec: [set] on the case store; the context name does
    not scope the key. *)
Definition setCase (context : string) (id : Z) (v : ReturnedCase.t) (c : t) : t :=
  mk (contexts c) (<[id := v]> (cases c)) (records c).

(** Modelled from the spec: invalidating a case removes that case entry
    only. *)
Definition invalidateCase (id : Z) (c : t) : t :=
  mk (contexts c) (delete id (cases c)) (records c).

(** Modelled from the spec: [get] on the record-set store. *)
Definition getRecords (context : string) (c : t) : option (list DataItem) :=
  records c !! context.

(** Modelled from the spec: [set] on the record-set store. *)
Definition setRecords (context : string) (v : list DataItem) (c : t) : t :=
  mk (contexts c) (cases c) (<[context := v]> (records c)).
End Cache.

(** ** The world the code runs in *)

(** The host at the other end of the phone, as the answers it gives: one
    response per request, and a list of responses to a bundled request. *)
Record Phone : Type :=
  { getContextResponse : string -> GetContextResponse.t;
    getCaseResponse : string -> Z -> GetCaseResponse.t;
    multipleResponses : list CodapRequest -> list CodapResponse }.

(** What leaves the module: calls on the phone, calls into [listeners.ts],
    and the acknowledgement passed to the callback of the request handler. *)
Inductive Event : Type :=
| phone_call (request : CodapRequest)
| phone_call_multiple (requests : list CodapRequest)
| callUpdateListenersForContext (context : string)
| callAllContextListeners
| callback (response : CodapResponse).

Record World : Type :=
  { host : Phone; cache : Cache.t; trace : list Event }.

Definition withCache (f : Cache.t -> Cache.t) (w : World) : World :=
  {| host := host w; cache := f (cache w); trace := trace w |}.

Definition withEvent (e : Event) (w : World) : World :=
  {| host := host w; cache := cache w; trace := trace w ++ [e] |}.

(** Settlement of a promise (or completion of a synchronous call):
    resolved with a value, rejected with an error, or not settled within
    the number of steps the model was given. *)
Inductive Outcome (A : Type) : Type :=
| Resolved (a : A)
| Rejected (e : JsError)
| Unsettled.
Arguments Resolved {A} a.
Arguments Rejected {A} e.
Arguments Unsettled {A}.

Definition M (A : Type) : Type := World -> Outcome A * World.

#[global] Instance M_ret : MRet M := λ A a w, (Resolved a, w).

#[global] Instance M_bind : MBind M := λ A B f m w,
  match m w with
  | (Resolved a, w') => f a w'
  | (Rejected e, w') => (Rejected e, w')
  | (Unsettled, w') => (Unsettled, w')
  end.

Definition resolve {A} (a : A) : M A := mret a.
Definition reject {A} (e : JsError) : M A := λ w, (Rejected e, w).
Definition unsettled {A} : M A := λ w, (Unsettled, w).
Definition emit (e : Event) : M unit := λ w, (Resolved tt, withEvent e w).
Definition readCache {A} (f : Cache.t -> A) : M A := λ w, (Resolved (f (cache w)), w).
Definition writeCache (f : Cache.t -> Cache.t) : M unit :=
  λ w, (Resolved tt, withCache f w).

(** [phone.call(request, callback)]: the request goes out, the callback
    runs on the host's response. *)
Definition phone_get_context (contextName : string) : M GetContextResponse.t :=
  λ w, (Resolved (getContextResponse (host w) contextName),
        withEvent (phone_call (Request Get (resourceFromContext contextName))) w).

Definition phone_get_case (context : string) (id : Z) : M GetCaseResponse.t :=
  λ w, (Resolved (getCaseResponse (host w) context id),
        withEvent (phone_call (Request Get (caseById context id))) w).

(** ** [index.ts] *)

(** [callMultiple]: one bundled call, resolved with the responses. *)
Definition callMultiple (requests : list CodapRequest) : M (list CodapResponse) :=
  λ w, (Resolved (multipleResponses (host w) requests),
        withEvent (phone_call_multiple requests) w).

(** Case ids are integers; [pretty] prints one in decimal, as the template
    literal of the error message does. *)
Definition getCaseById (context : string) (id : Z) : M ReturnedCase.t :=
  cached ← readCache (Cache.getCase id);
  match cached with
  | Some c => resolve c
  | None =>
      response ← phone_get_case context id;
      if GetCaseResponse.success response then
        let result := GetCaseResponse.case response in
        _ ← writeCache (Cache.setCase context id result);
        resolve result
      else
        reject (Error ("Failed to get case in " +:+ context +:+ " with id " +:+ pretty id))
  end.

(** The spread [{ ...a, ...b }]: the keys of both, [b] winning where both
    have a key. *)
Definition spread (a b : DataItem) : DataItem := b ∪ a.

(** [dataItemFromChildCase], the closure of [getDataFromContext].  It
    recurses along parent ids, which need not end; [fuel] bounds the number
    of cases visited. *)
Fixpoint dataItemFromChildCase (fuel : nat) (context : string)
    (c : ReturnedCase.t) : M DataItem :=
  match fuel with
  | O => unsettled
  | S fuel' =>
      match ReturnedCase.parent c with
      | None => resolve (ReturnedCase.values c)
      | Some parentId =>
          parent ← getCaseById context parentId;
          inherited ← dataItemFromChildCase fuel' context parent;
          resolve (spread (ReturnedCase.values c) inherited)
      end
  end.

(** ** Flattening along a chain of cases *)

(** What [getCaseById] finds for an id: the cached case if there is one,
    otherwise the case of a successful response of the host. *)
Definition lookupById (w : World) (context : string) (id : Z) : option ReturnedCase.t :=
  match Cache.getCase id (cache w) with
  | Some c => Some c
  | None =>
      let response := getCaseResponse (host w) context id in
      if GetCaseResponse.success response
      then Some (GetCaseResponse.case response) else None
  end.

(** [chain w context c ancestors]: following parent ids from [c] visits
    [ancestors], nearest parent first, and ends at a case without parent. *)
Inductive chain (w : World) (context : string) :
    ReturnedCase.t -> list ReturnedCase.t -> Prop :=
| chain_root c :
    ReturnedCase.parent c = None -> chain w context c []
| chain_step c parentId p ancestors :
    ReturnedCase.parent c = Some parentId ->
    lookupById w context parentId = Some p ->
    chain w context p ancestors ->
    chain w context c (p :: ancestors).

(** The record a chain flattens to: the values of the case under the
    flattened record of its ancestors. *)
Fixpoint flattened (c : ReturnedCase.t) (ancestors : list ReturnedCase.t) : DataItem :=
  match ancestors with
  | [] => ReturnedCase.values c
  | p :: rest => spread (ReturnedCase.values c) (flattened p rest)
  end.

(** The value of key [k] held by the case nearest to the root among the
    cases of a chain listed leaf first. *)
Fixpoint rootmost (k : string) (cs : list ReturnedCase.t) : option Value :=
  match cs with
  | [] => None
  | c :: rest =>
      match rootmost k rest with
      | Some v => Some v
      | None => ReturnedCase.values c !! k
      end
  end.

(** ** [util.ts] *)

Module Util.
(** Modelled from the spec: [util.ts] is not among the sources embedded
    here.  Normalising a requested collection fills in the attribute and label
    fields it leaves out. *)
Definition fillCollectionWithDefaults (collection : Collection.t) : Collection.t :=
  Collection.mk (Collection.name collection)
    (Some (default [] (Collection.attrs collection)))
    (Some (default ∅ (Collection.labels collection))).

(** Modelled from the spec: two collection sequences are equal iff they
    have the same length and each positional pair has equal name and equal
    attribute and label content. *)
Fixpoint collectionsEqual (cs1 cs2 : list Collection.t) : bool :=
  match cs1, cs2 with
  | [], [] => true
  | c1 :: rest1, c2 :: rest2 =>
      bool_decide (Collection.name c1 = Collection.name c2)
      && bool_decide (Collection.attrs c1 = Collection.attrs c2)
      && bool_decide (Collection.labels c1 = Collection.labels c2)
      && collectionsEqual rest1 rest2
  | _, _ => false
  end.
End Util.

Section Index.
(** [normalizeDataContext] of [util.ts], which is not among the sources
    embedded here: any function from the context the host returns to the
    context that is stored. *)
Variable normalizeDataContext : DataContext.t -> DataContext.t.

Definition getDataContext (contextName : string) : M DataContext.t :=
  cached ← readCache (Cache.getContext contextName);
  match cached with
  | Some c => resolve c
  | None =>
      response ← phone_get_context contextName;
      if GetContextResponse.success response then
        let context := normalizeDataContext (GetContextResponse.values response) in
        _ ← writeCache (Cache.setContext contextName context);
        resolve context
      else
        reject (Error ("Failed to get context " +:+ contextName))
  end.

Definition concatNames (nameAcc : string) (collection : Collection.t) : string :=
  nameAcc +:+ Collection.name collection.

(** The [uniqueName] of [updateContextWithDataSet]: the names of the
    context's collections, then those of the dataset's, concatenated. *)
Definition placeholderName (context : DataContext.t) (dataset : Dataset.t) : string :=
  fold_left concatNames (DataContext.collections context) ""
  +:+ fold_left concatNames (Dataset.collections dataset) "".

(** The [requests] array of [updateContextWithDataSet] as it stands when
    it is handed to [callMultiple]. *)
Definition reconcileRequests (contextName : string) (context : DataContext.t)
    (dataset : Dataset.t) : list CodapRequest :=
  let requests :=
    map (λ collection, Actions_deleteAllCases contextName (Collection.name collection))
        (DataContext.collections context) in
  let normalizedCollections :=
    map Util.fillCollectionWithDefaults (Dataset.collections dataset) in
  let requests :=
    if negb (Util.collectionsEqual (DataContext.collections context) normalizedCollections)
    then
      let uniqueName := placeholderName context dataset in
      requests
        ++ [Actions_createCollections contextName
              [Collection.mk uniqueName None (Some ∅)]]
        ++ map (λ collection,
                  Actions_deleteCollection contextName (Collection.name collection))
               (DataContext.collections context)
        ++ [Actions_createCollections contextName (Dataset.collections dataset)]
        ++ [Actions_deleteCollection contextName uniqueName]
    else requests in
  requests ++ [Actions_insertDataItems contextName (Dataset.records dataset)].

(** The loop over the responses of the bundled call. *)
Fixpoint checkResponses (contextName : string) (responses : list CodapResponse) : M unit :=
  match responses with
  | [] => resolve tt
  | response :: rest =>
      if negb (success response)
      then reject (Error ("Failed to update " +:+ contextName))
      else checkResponses contextName rest
  end.

Definition updateContextWithDataSet (contextName : string) (dataset : Dataset.t) : M unit :=
  context ← getDataContext contextName;
  responses ← callMultiple (reconcileRequests contextName context dataset);
  checkResponses contextName responses.
End Index.

(** ** [endpoint.ts] *)

(** The members of the two enumerations of operations that the handler
    names; whatever else the host may send is [operation_other] below. *)
Inductive DocumentChangeOperations : Type := DataContextCountChanged.

Inductive ContextChangeOperation : Type :=
| UpdateCases | CreateCases | DeleteCases | MoveCases
| CreateAttribute | UpdateAttribute | DeleteAttribute | MoveAttribute
| UpdateCollection | CreateCollection | DeleteCollection
| DependentCases | HideAttribute | UnhideAttribute
| UpdateContext.

#[global] Instance ContextChangeOperation_eq_dec : EqDecision ContextChangeOperation.
Proof. solve_decision. Defined.

(** The [operation] property of an object sent by the host, as the handler
    can tell it apart: a member of one of the two enumerations (whose
    members are distinct values), or anything else, a missing property
    included. *)
Inductive OperationValue : Type :=
| operation_document (o : DocumentChangeOperations)
| operation_context (o : ContextChangeOperation)
| operation_other.

Module Result.
(** [result.caseIDs]: [None] unless it is an array. *)
Record t : Type := mk { caseIDs : option (list Z) }.
End Result.

Module JsObject.
(** A value that is neither [undefined] nor [null], through the two
    properties the handler reads; [result] is [None] where it is
    [undefined] or [null]. *)
Record t : Type := mk { operation : OperationValue; result : option Result.t }.
End JsObject.

(** The [values] of a host-initiated command: missing ([undefined] or
    [null]), an array whose elements may themselves be missing, or any
    other value. *)
Inductive JsValues : Type :=
| undefined
| object (o : JsObject.t)
| array (items : list (option JsObject.t)).

Module CodapInitiatedCommand.
Record t : Type :=
  mk { action : CodapActions; resource : string; values : JsValues }.
End CodapInitiatedCommand.

Definition mutatingOperations : list ContextChangeOperation :=
  [ UpdateCases; CreateCases; DeleteCases; MoveCases;
    CreateAttribute; UpdateAttribute; DeleteAttribute; MoveAttribute;
    UpdateCollection; CreateCollection; DeleteCollection;
    DependentCases; HideAttribute; UnhideAttribute ].

(** [mutatingOperations.includes(v)] *)
Definition includes (l : list ContextChangeOperation) (v : OperationValue) : bool :=
  match v with
  | operation_context o => bool_decide (o ∈ l)
  | _ => false
  end.

(** [v === op] for a member [op] of [ContextChangeOperation] *)
Definition is_operation (v : OperationValue) (op : ContextChangeOperation) : bool :=
  match v with
  | operation_context o => bool_decide (o = op)
  | _ => false
  end.

(** Strings are sequences of characters, indexed from 0.

    [String.prototype.startsWith] *)
Definition startsWith (s searchString : string) : bool := String.prefix searchString s.

(** [s.search("\\[")]: the index of the first opening bracket, or -1. *)
Definition search_bracket (s : string) : Z :=
  match String.index 0 "[" s with
  | Some n => Z.of_nat n
  | None => (-1)%Z
  end.

(** [String.prototype.slice] with both bounds given. *)
Definition slice (s : string) (start finish : Z) : string :=
  let len := Z.of_nat (String.length s) in
  let from := if (start <? 0)%Z then Z.max (len + start) 0 else Z.min start len in
  let to := if (finish <? 0)%Z then Z.max (len + finish) 0 else Z.min finish len in
  String.substring (Z.to_nat from) (Z.to_nat (Z.max (to - from) 0)) s.

(** The context name between the first opening bracket and the last
    character of the resource. *)
Definition contextNameOf (resource : string) : string :=
  slice resource (search_bracket resource + 1)
        (Z.of_nat (String.length resource) - 1).

(** [caseIDs.map(Cache.invalidateCase)] *)
Definition invalidateCases (caseIDs : list Z) : M unit :=
  writeCache (λ c, fold_left (λ c id, Cache.invalidateCase id c) caseIDs c).

(** The body of the loop over [command.values], for one element. *)
Definition invalidateCasesOf (value : JsObject.t) : M unit :=
  if is_operation (JsObject.operation value) DeleteCases
     || is_operation (JsObject.operation value) UpdateCases
  then
    match JsObject.result value with
    | Some result =>
        match Result.caseIDs result with
        | Some caseIDs => invalidateCases caseIDs
        | None => resolve tt
        end
    | None => resolve tt
    end
  else resolve tt.

(** The loop [for (const value of command.values)], carrying the two
    flags.  Reading [operation] of a missing element throws. *)
Fixpoint scanValues (items : list (option JsObject.t))
    (contextUpdate contextListUpdate : bool) : M (bool * bool) :=
  match items with
  | [] => resolve (contextUpdate, contextListUpdate)
  | None :: _ => reject TypeError
  | Some value :: rest =>
      let contextUpdate :=
        contextUpdate || includes mutatingOperations (JsObject.operation value) in
      let contextListUpdate :=
        contextListUpdate || is_operation (JsObject.operation value) UpdateContext in
      _ ← invalidateCasesOf value;
      scanValues rest contextUpdate contextListUpdate
  end.

(** [command.values.operation]: throws when [values] is missing; an array
    has no such property. *)
Definition values_operation (values : JsValues) : M OperationValue :=
  match values with
  | undefined => reject TypeError
  | object o => resolve (JsObject.operation o)
  | array _ => resolve operation_other
  end.

Definition ok : CodapResponse := {| success := true |}.

Section Endpoint.
(** The two members of [CodapInitiatedResource] the handler names; their
    string values are declared in [types.ts], which is not among the
    sources embedded here. *)
Variables DocumentChangeNotice DataContextChangeNotice : string.

Definition codapRequestHandler (command : CodapInitiatedCommand.t) : M unit :=
  let resource := CodapInitiatedCommand.resource command in
  let values := CodapInitiatedCommand.values command in
  if negb (bool_decide (CodapInitiatedCommand.action command = Notify)) then
    emit (callback ok)
  else
    countChanged ←
      (if bool_decide (resource = DocumentChangeNotice) then
         operation ← values_operation values;
         resolve (match operation with
                  | operation_document DataContextCountChanged => true
                  | _ => false
                  end)
       else resolve false);
    if countChanged : bool then
      _ ← emit callAllContextListeners;
      emit (callback ok)
    else
      _ ← (if startsWith resource DataContextChangeNotice then
             match values with
             | array items =>
                 let contextName := contextNameOf resource in
                 '(contextUpdate, contextListUpdate) ← scanValues items false false;
                 _ ← (if contextUpdate : bool then
                        _ ← writeCache (Cache.invalidateContext contextName);
                        emit (callUpdateListenersForContext contextName)
                      else resolve tt);
                 if contextListUpdate : bool then emit callAllContextListeners
                 else resolve tt
             | _ => resolve tt
             end
           else resolve tt);
      emit (callback ok).
End Endpoint.

(** ** Vocabulary of the properties *)

(** A request that creates or deletes a collection. *)
Definition isCollectionManagement (request : CodapRequest) : bool :=
  match request with
  | Actions_createCollections _ _ | Actions_deleteCollection _ _ => true
  | _ => false
  end.

Definition isInsertDataItems (request : CodapRequest) : bool :=
  match request with
  | Actions_insertDataItems _ _ => true
  | _ => false
  end.

(** The case ids an element of a notification batch lists for
    invalidation: those of the result payload of a delete-cases or
    update-cases operation. *)
Definition listedCaseIDs (value : JsObject.t) : list Z :=
  match JsObject.operation value with
  | operation_context DeleteCases | operation_context UpdateCases =>
      match JsObject.result value with
      | Some result => default [] (Result.caseIDs result)
      | None => []
      end
  | _ => []
  end.

(** The responses passed to the callback of the request handler. *)
Definition acknowledgements (t : list Event) : list CodapResponse :=
  omap (λ e, match e with callback r => Some r | _ => None end) t.

Definition hasMissingElement (values : JsValues) : bool :=
  match values with
  | array items => existsb (λ item, bool_decide (item = None)) items
  | _ => false
  end.

Section EndpointVocabulary.
Variables DocumentChangeNotice DataContextChangeNotice : string.

(** The commands on which the handler reads a property of a missing
    value: a notification on the document-change resource without values,
    and a context-change batch with a missing element. *)
Definition readsMissing (command : CodapInitiatedCommand.t) : bool :=
  bool_decide (CodapInitiatedCommand.action command = Notify)
  && ((bool_decide (CodapInitiatedCommand.resource command = DocumentChangeNotice)
       && match CodapInitiatedCommand.values command with
          | undefined => true
          | _ => false
          end)
      || (startsWith (CodapInitiatedCommand.resource command) DataContextChangeNotice
          && hasMissingElement (CodapInitiatedCommand.values command))).
End EndpointVocabulary.

(** ** Sample data *)

Module Sample.
Definition num (n : Z) : Value := VNum n.

(** The chain root, mid, leaf of the design document, under the ids 1, 2
    and 3. *)
Definition root : ReturnedCase.t :=
  ReturnedCase.mk None {[ "a" := num 1 ]}.
Definition mid : ReturnedCase.t :=
  ReturnedCase.mk (Some 1%Z) (<[ "a" := num 2 ]> {[ "b" := num 2 ]}).
Definition leaf : ReturnedCase.t :=
  ReturnedCase.mk (Some 2%Z) (<[ "b" := num 3 ]> {[ "c" := num 3 ]}).

Definition people : Collection.t := Collection.mk "people" (Some ["name"; "age"]) (Some ∅).
Definition pets : Collection.t := Collection.mk "pets" (Some ["pet"]) (Some ∅).
Definition stored : DataContext.t := DataContext.mk "Survey" [people].

(** A host that knows the context "Survey" and the cases 1 and 2, and
    answers every step of a bundled call with success. *)
Definition phone : Phone :=
  {| getContextResponse := λ contextName,
       GetContextResponse.mk (bool_decide (contextName = "Survey")) stored;
     getCaseResponse := λ _ id,
       if bool_decide (id = 1%Z) then GetCaseResponse.mk true root
       else if bool_decide (id = 2%Z) then GetCaseResponse.mk true mid
       else GetCaseResponse.mk false root;
     multipleResponses := map (λ _, ok) |}.

Definition world : World :=
  {| host := phone; cache := Cache.empty; trace := [] |}.

(** The same world once the context "Survey" and the case 7 are cached. *)
Definition cached : World :=
  {| host := phone;
     cache := Cache.setCase "Survey" 7 leaf (Cache.setContext "Survey" stored Cache.empty);
     trace := [] |}.

(** A host whose third response to a bundled call is a failure. *)
Definition failingPhone : Phone :=
  {| getContextResponse := getContextResponse phone;
     getCaseResponse := getCaseResponse phone;
     multipleResponses := λ requests,
       imap (λ i _, {| success := negb (Nat.eqb i 2) |}) requests |}.

Definition failing : World :=
  {| host := failingPhone; cache := cache cached; trace := [] |}.

Definition normalizeDataContext (context : DataContext.t) : DataContext.t :=
  DataContext.mk (DataContext.title context)
    (map Util.fillCollectionWithDefaults (DataContext.collections context)).

Definition DocumentChangeNotice : string := "documentChangeNotice".
Definition DataContextChangeNotice : string := "dataContextChangeNotice".

Definition createAttribute : JsObject.t :=
  JsObject.mk (operation_context CreateAttribute) None.
Definition updateContext : JsObject.t :=
  JsObject.mk (operation_context UpdateContext) None.
Definition deleteCases : JsObject.t :=
  JsObject.mk (operation_context DeleteCases) (Some (Result.mk (Some [5; 9]%Z))).
End Sample.
(** ** The list and creation calls of [index.ts]

    [getAllCollections], [getAllAttributes], [createDataContext],
    [insertDataItems] and [createContextWithDataset] do not touch the cache: their state is the log of the requests that
    went out on the phone. *)

Module CodapIdentifyingInfo.
(** The identifying information (name, title) of a context, a collection or
    an attribute. *)
Record t : Type := mk { name : string; title : string }.
End CodapIdentifyingInfo.

(** The resources these calls address, kept as the member of
    [CodapResource] or the builder of [resource.ts] that names them. *)
Inductive ListResource : Type :=
| CodapResource_DataContext
| collectionListFromContext (context : string)
| attributeListFromCollection (context collection : string)
| itemFromContext (context : string).

(** The [values] of the request literals. *)
Inductive PayloadValues : Type :=
| no_values
| context_values (name title : string) (collections : list Collection.t)
| item_values (data : list DataItem).

Module Payload.
Record t : Type :=
  mk { action : CodapActions; resource : ListResource; values : PayloadValues }.
End Payload.

Module GetDataListResponse.
Record t : Type := mk { success : bool; values : list CodapIdentifyingInfo.t }.
End GetDataListResponse.

Module CreateContextResponse.
Record t : Type := mk { success : bool; values : CodapIdentifyingInfo.t }.
End CreateContextResponse.

(** The host's answers to these requests. *)
Record Remote : Type :=
  { collectionListResponse : string -> GetDataListResponse.t;
    attributeListResponse : string -> string -> GetDataListResponse.t;
    createContextResponse :
      string -> string -> list Collection.t -> CreateContextResponse.t;
    createItemsResponse : string -> list DataItem -> CodapResponse }.

Definition Calls (A : Type) : Type := list Payload.t -> Outcome A * list Payload.t.

#[global] Instance Calls_ret : MRet Calls := λ A a log, (Resolved a, log).

#[global] Instance Calls_bind : MBind Calls := λ A B f m log,
  match m log with
  | (Resolved a, log') => f a log'
  | (Rejected e, log') => (Rejected e, log')
  | (Unsettled, log') => (Unsettled, log')
  end.

(** [phone.call(request, ...)]: the request goes out. *)
Definition send (request : Payload.t) : Calls unit :=
  λ log, (Resolved tt, log ++ [request]).

Definition sendAll (requests : list Payload.t) : Calls unit :=
  λ log, (Resolved tt, log ++ requests).

Definition failed {A} (message : string) : Calls A :=
  λ log, (Rejected (Error message), log).

Section Lists.
Variable remote : Remote.

Definition getAllCollections (context : string) : Calls (list CodapIdentifyingInfo.t) :=
  _ ← send (Payload.mk Get (collectionListFromContext context) no_values);
  let response := collectionListResponse remote context in
  if GetDataListResponse.success response
  then mret (GetDataListResponse.values response)
  else failed "Failed to get collections.".

(** The promises of [getAllAttributes] are all created, and their requests
    all sent, before [Promise.all] waits for them; every rejection carries
    the same error. *)
Definition getAllAttributes (context : string) : Calls (list CodapIdentifyingInfo.t) :=
  infos ← getAllCollections context;
  let collections := map CodapIdentifyingInfo.name infos in
  _ ← sendAll
        (map (λ collectionName,
                Payload.mk Get (attributeListFromCollection context collectionName)
                  no_values)
             collections);
  let responses := map (attributeListResponse remote context) collections in
  if forallb GetDataListResponse.success responses
  then mret (concat (map GetDataListResponse.values responses))
  else failed "Failed to get attributes.".

Definition createDataContext (name : string) (collections : list Collection.t)
    (title : option string) : Calls CodapIdentifyingInfo.t :=
  let title := match title with Some title => title | None => name end in
  _ ← send (Payload.mk Create CodapResource_DataContext
              (context_values name title collections));
  let response := createContextResponse remote name title collections in
  if CreateContextResponse.success response
  then mret (CreateContextResponse.values response)
  else failed "Failed to create dataset".

Definition insertDataItems (contextName : string) (data : list DataItem) : Calls unit :=
  _ ← send (Payload.mk Create (itemFromContext contextName) (item_values data));
  if success (createItemsResponse remote contextName data)
  then mret tt
  else failed "Failed to create dataset with data".

Definition createContextWithDataset (dataset : Dataset.t) (name : string)
    (title : option string) : Calls CodapIdentifyingInfo.t :=
  newDatasetDescription ← createDataContext name (Dataset.collections dataset) title;
  _ ← insertDataItems (CodapIdentifyingInfo.name newDatasetDescription)
        (Dataset.records dataset);
  mret newDatasetDescription.
End Lists.

(** ** More vocabulary *)

(** The context a request addresses. *)
Definition requestContext (request : CodapRequest) : string :=
  match request with
  | Request _ (resourceFromContext context) => context
  | Request _ (caseById context _) => context
  | Actions_deleteAllCases context _ => context
  | Actions_createCollections context _ => context
  | Actions_deleteCollection context _ => context
  | Actions_insertDataItems context _ => context
  end.

(** An event that is a call on the phone. *)
Definition isPhoneCall (e : Event) : bool :=
  match e with
  | phone_call _ | phone_call_multiple _ => true
  | _ => false
  end.

(** An event that is a get of a case by id in the given context. *)
Definition isCaseFetch (context : string) (e : Event) : Prop :=
  exists id, e = phone_call (Request Get (caseById context id)).

(** Every entry of the first cache is an entry of the second. *)
Definition cacheWithin (c' c : Cache.t) : Prop :=
  Cache.contexts c' ⊆ Cache.contexts c /\
  Cache.cases c' ⊆ Cache.cases c /\
  Cache.records c' ⊆ Cache.records c.

(** [orphan w context c ancestors missing]: following parent ids from [c]
    visits [ancestors], nearest parent first, and then meets the parent id
    [missing], which is neither cached nor returned by the host. *)
Inductive orphan (w : World) (context : string) :
    ReturnedCase.t -> list ReturnedCase.t -> Z -> Prop :=
| orphan_here c missing :
    ReturnedCase.parent c = Some missing ->
    lookupById w context missing = None ->
    orphan w context c [] missing
| orphan_step c parentId p ancestors missing :
    ReturnedCase.parent c = Some parentId ->
    lookupById w context parentId = Some p ->
    orphan w context p ancestors missing ->
    orphan w context c (p :: ancestors) missing.

(** [cachedChain w c ancestors]: the chain of [c], nearest parent first,
    with every parent found in the case store. *)
Inductive cachedChain (w : World) : ReturnedCase.t -> list ReturnedCase.t -> Prop :=
| cachedChain_root c :
    ReturnedCase.parent c = None -> cachedChain w c []
| cachedChain_step c parentId p ancestors :
    ReturnedCase.parent c = Some parentId ->
    Cache.getCase parentId (cache w) = Some p ->
    cachedChain w p ancestors ->
    cachedChain w c (p :: ancestors).

(** ** More sample data *)

Module Scenario.
(** A case that names itself as its parent, cached under the id 8. *)
Definition ouroboros : ReturnedCase.t :=
  ReturnedCase.mk (Some 8%Z) {[ "a" := VNum 1 ]}.

Definition looping : World :=
  {| host := Sample.phone;
     cache := Cache.setCase "Survey" 8 ouroboros Cache.empty;
     trace := [] |}.

(** A world with the cases 1 and 2 of the sample chain in the case store. *)
Definition warm : World :=
  {| host := Sample.phone;
     cache := Cache.setCase "Survey" 2 Sample.mid
                (Cache.setCase "Survey" 1 Sample.root Cache.empty);
     trace := [] |}.

(** A case whose parent, 4, the host does not know. *)
Definition stray : ReturnedCase.t :=
  ReturnedCase.mk (Some 4%Z) {[ "c" := VNum 3 ]}.

Definition updateCasesWithoutResult : JsObject.t :=
  JsObject.mk (operation_context UpdateCases) None.

Definition updateCase7 : JsObject.t :=
  JsObject.mk (operation_context UpdateCases) (Some (Result.mk (Some [7]%Z))).

Definition selectCases : JsObject.t := JsObject.mk operation_other None.

Definition info (name : string) : CodapIdentifyingInfo.t :=
  CodapIdentifyingInfo.mk name name.

(** A host with the collections "people" and "pets" in every context but
    "Census", which it does not list; it renames the contexts it creates
    and accepts items only for the context "Survey 1". *)
Definition remote : Remote :=
  {| collectionListResponse := λ context,
       GetDataListResponse.mk (negb (bool_decide (context = "Census")))
         [info "people"; info "pets"];
     attributeListResponse := λ _ collection,
       if bool_decide (collection = "people")
       then GetDataListResponse.mk true [info "name"; info "age"]
       else GetDataListResponse.mk true [info "pet"];
     createContextResponse := λ name title _,
       CreateContextResponse.mk (negb (bool_decide (name = "")))
         (CodapIdentifyingInfo.mk (name +:+ " 1") title);
     createItemsResponse := λ contextName _,
       {| success := bool_decide (contextName = "Survey 1") |} |}.
End Scenario.

(** * Properties *)

Lemma spread_lookup (a b : DataItem) (k : string) :
  spread a b !! k = match b !! k with Some v => Some v | None => a !! k end.
Proof.
  unfold spread. rewrite lookup_union.
  destruct (b !! k), (a !! k); reflexivity.
Qed.

Lemma flattened_rootmost c ancestors k :
  flattened c ancestors !! k = rootmost k (c :: ancestors).
Proof.
  revert c. induction ancestors as [|p rest IH]; intros c; simpl.
  - reflexivity.
  - rewrite spread_lookup, IH. reflexivity.
Qed.

Lemma rootmost_survives k cs c :
  c ∈ cs -> is_Some (ReturnedCase.values c !! k) -> is_Some (rootmost k cs).
Proof.
  induction cs as [|c' rest IH]; intros Hin Hk.
  - inversion Hin.
  - simpl. destruct (rootmost k rest) eqn:E; [eauto|].
    apply elem_of_cons in Hin as [->|Hin]; [assumption|].
    specialize (IH Hin Hk). rewrite ?E in IH. by destruct IH.
Qed.

(** [getCaseById] on an id that can be found: resolves with the case, and
    every id is found afterwards as before. *)
Lemma getCaseById_found w context id p :
  lookupById w context id = Some p ->
  exists w',
    getCaseById context id w = (Resolved p, w') /\
    host w' = host w /\
    forall id', lookupById w' context id' = lookupById w context id'.
Proof.
  unfold lookupById, getCaseById, readCache, mbind, M_bind. intros H.
  destruct (Cache.getCase id (cache w)) as [c|] eqn:Hc.
  - injection H as ->. exists w. auto.
  - unfold phone_get_case.
    destruct (GetCaseResponse.success (getCaseResponse (host w) context id)) eqn:Hs;
      [|discriminate].
    injection H as <-. eexists. split; [reflexivity|]. split; [reflexivity|].
    intros id'. simpl. unfold Cache.getCase in *. simpl.
    destruct (decide (id = id')) as [<-|Hne].
    + rewrite lookup_insert_eq, Hc, Hs. reflexivity.
    + rewrite lookup_insert_ne by assumption. reflexivity.
Qed.

Lemma chain_lookup_ext w w' context c ancestors :
  (forall id, lookupById w' context id = lookupById w context id) ->
  chain w context c ancestors -> chain w' context c ancestors.
Proof.
  intros Hext Hch. induction Hch.
  - by constructor.
  - econstructor; eauto. by rewrite Hext.
Qed.

Lemma dataItemFromChildCase_chain context ancestors :
  forall fuel w c,
    chain w context c ancestors ->
    length ancestors < fuel ->
    exists w',
      dataItemFromChildCase fuel context c w = (Resolved (flattened c ancestors), w') /\
      host w' = host w /\
      forall id, lookupById w' context id = lookupById w context id.
Proof.
  induction ancestors as [|p rest IH]; intros fuel w c Hch Hfuel;
    destruct fuel as [|fuel]; simpl in Hfuel; try lia; inversion Hch; subst.
  - simpl. rewrite H. exists w. auto.
  - simpl. rewrite H1.
    destruct (getCaseById_found _ _ _ _ H3) as (w1 & Hget & Hh1 & Hl1).
    destruct (IH fuel w1 p) as (w2 & Hrec & Hh2 & Hl2).
    { by apply (chain_lookup_ext w). }
    { lia. }
    exists w2. unfold mbind, M_bind. rewrite Hget, Hrec.
    split; [reflexivity|]. split; [congruence|].
    intros id. by rewrite Hl2, Hl1.
Qed.

Ltac run_M :=
  unfold mbind, M_bind, mret, M_ret, resolve, reject, unsettled, emit,
    readCache, writeCache, phone_get_context, phone_get_case, callMultiple;
  simpl.

(** C1, as amended.  Flattening a case at the end of a chain of cases linked
    by parent ids resolves, once the fuel exceeds the number of ancestors,
    with the case's own values spread first and the flattened record of its
    parent spread on top: for every key the value of the case nearest to the
    root wins, and every key of every case of the chain is present. *)
Theorem dataItemFromChildCase_ancestors_take_precedence
    (w : World) (context : string) (c : ReturnedCase.t)
    (ancestors : list ReturnedCase.t) (fuel : nat) :
  chain w context c ancestors ->
  length ancestors < fuel ->
  exists w',
    dataItemFromChildCase fuel context c w = (Resolved (flattened c ancestors), w') /\
    (forall k, flattened c ancestors !! k = rootmost k (c :: ancestors)) /\
    (forall c' k, c' ∈ c :: ancestors ->
                  is_Some (ReturnedCase.values c' !! k) ->
                  is_Some (flattened c ancestors !! k)).
Proof.
  intros Hch Hfuel.
  destruct (dataItemFromChildCase_chain context ancestors fuel w c Hch Hfuel)
    as (w' & Hrun & _ & _).
  exists w'. split; [exact Hrun|]. split.
  - intros k. apply flattened_rootmost.
  - intros c' k Hin Hk. rewrite flattened_rootmost.
    by apply (rootmost_survives k (c :: ancestors) c').
Qed.

Lemma sample_chain : chain Sample.world "Survey" Sample.leaf [Sample.mid; Sample.root].
Proof.
  eapply chain_step with (parentId := 2%Z); [reflexivity | reflexivity |].
  eapply chain_step with (parentId := 1%Z); [reflexivity | reflexivity |].
  apply chain_root. reflexivity.
Defined.

Lemma dataItemFromChildCase_ancestors_take_precedence_witness :
  chain Sample.world "Survey" Sample.leaf [Sample.mid; Sample.root] /\
  length [Sample.mid; Sample.root] < 3 /\
  flattened Sample.leaf [Sample.mid; Sample.root]
    = <[ "a" := VNum 1 ]> (<[ "b" := VNum 2 ]> {[ "c" := VNum 3 ]}) /\
  exists w',
    dataItemFromChildCase 3 "Survey" Sample.leaf Sample.world
      = (Resolved (flattened Sample.leaf [Sample.mid; Sample.root]), w') /\
    (forall k, flattened Sample.leaf [Sample.mid; Sample.root] !! k
               = rootmost k [Sample.leaf; Sample.mid; Sample.root]) /\
    (forall c' k, c' ∈ [Sample.leaf; Sample.mid; Sample.root] ->
                  is_Some (ReturnedCase.values c' !! k) ->
                  is_Some (flattened Sample.leaf [Sample.mid; Sample.root] !! k)).
Proof.
  split; [exact sample_chain|]. split; [simpl; lia|]. split; [vm_compute; reflexivity|].
  apply (dataItemFromChildCase_ancestors_take_precedence
           Sample.world "Survey" Sample.leaf [Sample.mid; Sample.root] 3).
  - exact sample_chain.
  - simpl. lia.
Defined.

(** C1, as stated, fails on the chain of the design document: the leaf
    flattens to a record with a = 1 and b = 2, the values of the ancestors,
    not to the record with a = 2, b = 3, c = 3. *)
Lemma dataItemFromChildCase_descendant_does_not_win :
  exists r w',
    dataItemFromChildCase 3 "Survey" Sample.leaf Sample.world = (Resolved r, w') /\
    ReturnedCase.values Sample.mid !! "a" = Some (VNum 2) /\
    ReturnedCase.values Sample.leaf !! "b" = Some (VNum 3) /\
    r !! "a" = Some (VNum 1) /\
    r !! "b" = Some (VNum 2) /\
    r !! "c" = Some (VNum 3) /\
    r <> <[ "a" := VNum 2 ]> (<[ "b" := VNum 3 ]> {[ "c" := VNum 3 ]}).
Proof.
  eexists _, _. split; [vm_compute; reflexivity|].
  repeat split; try (vm_compute; reflexivity).
  intros Heq. apply (f_equal (λ m : DataItem, m !! "a")) in Heq.
  vm_compute in Heq. discriminate.
Qed.

Section IndexProperties.
Variable normalizeDataContext : DataContext.t -> DataContext.t.

(** C8.  [getDataContext] resolves with the cached context and leaves the
    world as it is (no call on the phone) when the cache has an entry for
    the name; on a miss it issues one remote get, and when the response
    is a success it normalises the returned context, stores it in the
    context store under that name and resolves with it. *)
Theorem getDataContext_through_cache (contextName : string) (w : World) :
  (forall c, Cache.getContext contextName (cache w) = Some c ->
             getDataContext normalizeDataContext contextName w = (Resolved c, w)) /\
  (Cache.getContext contextName (cache w) = None ->
   GetContextResponse.success (getContextResponse (host w) contextName) = true ->
   exists w',
     getDataContext normalizeDataContext contextName w
       = (Resolved (normalizeDataContext
                      (GetContextResponse.values (getContextResponse (host w) contextName))),
          w') /\
     trace w' = trace w ++ [phone_call (Request Get (resourceFromContext contextName))] /\
     cache w'
       = Cache.setContext contextName
           (normalizeDataContext
              (GetContextResponse.values (getContextResponse (host w) contextName)))
           (cache w) /\
     Cache.getContext contextName (cache w')
       = Some (normalizeDataContext
                 (GetContextResponse.values (getContextResponse (host w) contextName)))).
Proof.
  split.
  - intros c Hc. unfold getDataContext. run_M. by rewrite Hc.
  - intros Hc Hs. unfold getDataContext. run_M. rewrite Hc, Hs.
    eexists. split; [reflexivity|]. simpl. repeat split.
    unfold Cache.getContext, Cache.setContext. simpl. apply lookup_insert_eq.
Qed.

(** C10.  When the cache has no entry and the remote fetch answers with a
    non-success response, [getDataContext] and [getCaseById] reject with
    an error that names the context (and the case id), and the cache is
    what it was: the entry is still absent. *)
Theorem failed_fetch_writes_nothing (w : World) :
  (forall contextName,
     Cache.getContext contextName (cache w) = None ->
     GetContextResponse.success (getContextResponse (host w) contextName) = false ->
     exists w',
       getDataContext normalizeDataContext contextName w
         = (Rejected (Error ("Failed to get context " +:+ contextName)), w') /\
       cache w' = cache w /\
       Cache.getContext contextName (cache w') = None) /\
  (forall context id,
     Cache.getCase id (cache w) = None ->
     GetCaseResponse.success (getCaseResponse (host w) context id) = false ->
     exists w',
       getCaseById context id w
         = (Rejected (Error ("Failed to get case in " +:+ context
                             +:+ " with id " +:+ pretty id)), w') /\
       cache w' = cache w /\
       Cache.getCase id (cache w') = None).
Proof.
  split.
  - intros contextName Hc Hs. unfold getDataContext. run_M.
    rewrite Hc, Hs. eexists. split; [reflexivity|]. simpl. auto.
  - intros context id Hc Hs. unfold getCaseById. run_M.
    rewrite Hc, Hs. eexists. split; [reflexivity|]. simpl. auto.
Qed.
Lemma collectionsEqual_true_iff (cs1 cs2 : list Collection.t) :
  Util.collectionsEqual cs1 cs2 = true <-> cs1 = cs2.
Proof.
  revert cs2. induction cs1 as [|c1 rest1 IH]; intros [|c2 rest2]; simpl;
    try (split; [discriminate || reflexivity | discriminate || reflexivity]).
  rewrite !andb_true_iff, !bool_decide_eq_true, IH.
  destruct c1, c2; simpl. split.
  - intros [[[-> ->] ->] ->]. reflexivity.
  - intros [= -> -> -> ->]. auto.
Qed.

Lemma checkResponses_scan (contextName : string) (responses : list CodapResponse)
    (w : World) :
  checkResponses contextName responses w
  = (if forallb success responses then Resolved tt
     else Rejected (Error ("Failed to update " +:+ contextName)), w).
Proof.
  induction responses as [|r rest IH]; simpl; [reflexivity|].
  destruct (success r); simpl; [exact IH | reflexivity].
Qed.

Lemma updateContextWithDataSet_run (contextName : string) (dataset : Dataset.t)
    (context : DataContext.t) (w w1 : World) :
  getDataContext normalizeDataContext contextName w = (Resolved context, w1) ->
  updateContextWithDataSet normalizeDataContext contextName dataset w
  = (if forallb success
          (multipleResponses (host w1) (reconcileRequests contextName context dataset))
     then Resolved tt
     else Rejected (Error ("Failed to update " +:+ contextName)),
     withEvent (phone_call_multiple (reconcileRequests contextName context dataset)) w1).
Proof.
  intros Hget. unfold updateContextWithDataSet, mbind, M_bind. rewrite Hget.
  unfold callMultiple. apply checkResponses_scan.
Qed.

(** C2.  When the collections requested, after default-filling, equal the
    collections of the context, the one bundled call that is submitted
    holds a delete-all-cases request per collection of the context
    followed by one insert-data-items request: no request creates or
    deletes a collection, and exactly one inserts data items. *)
Theorem updateContextWithDataSet_same_collections (contextName : string)
    (dataset : Dataset.t) (context : DataContext.t) (w w1 : World) :
  getDataContext normalizeDataContext contextName w = (Resolved context, w1) ->
  Util.collectionsEqual (DataContext.collections context)
    (map Util.fillCollectionWithDefaults (Dataset.collections dataset)) = true ->
  exists outcome w2 requests,
    updateContextWithDataSet normalizeDataContext contextName dataset w = (outcome, w2) /\
    trace w2 = trace w1 ++ [phone_call_multiple requests] /\
    requests
    = map (λ collection, Actions_deleteAllCases contextName (Collection.name collection))
          (DataContext.collections context)
      ++ [Actions_insertDataItems contextName (Dataset.records dataset)] /\
    List.filter isCollectionManagement requests = [] /\
    length (List.filter isInsertDataItems requests) = 1.
Proof.
  intros Hget Heq. rewrite (updateContextWithDataSet_run _ _ _ _ _ Hget).
  eexists _, _, _. split; [reflexivity|]. split; [reflexivity|].
  unfold reconcileRequests. rewrite Heq. simpl. split; [reflexivity|].
  rewrite !List.filter_app. simpl.
  clear Hget Heq.
  split; induction (DataContext.collections context) as [|c cs IH]; simpl; auto.
Qed.

(** C3.  When the collections requested, after default-filling, differ
    from the collections of the context, one bundled call is submitted
    and it holds, in this order: a delete-all-cases request per collection
    of the context, the creation of the single placeholder collection,
    a delete-collection request per collection of the context, the
    creation of the requested collections, the deletion of the
    placeholder, and the insertion of the caller's records. *)
Theorem updateContextWithDataSet_changed_collections (contextName : string)
    (dataset : Dataset.t) (context : DataContext.t) (w w1 : World) :
  getDataContext normalizeDataContext contextName w = (Resolved context, w1) ->
  Util.collectionsEqual (DataContext.collections context)
    (map Util.fillCollectionWithDefaults (Dataset.collections dataset)) = false ->
  exists outcome w2,
    updateContextWithDataSet normalizeDataContext contextName dataset w = (outcome, w2) /\
    trace w2
    = trace w1
      ++ [phone_call_multiple
            (map (λ collection,
                    Actions_deleteAllCases contextName (Collection.name collection))
                 (DataContext.collections context)
             ++ [Actions_createCollections contextName
                   [Collection.mk (placeholderName context dataset) None (Some ∅)]]
             ++ map (λ collection,
                       Actions_deleteCollection contextName (Collection.name collection))
                    (DataContext.collections context)
             ++ [Actions_createCollections contextName (Dataset.collections dataset);
                 Actions_deleteCollection contextName (placeholderName context dataset);
                 Actions_insertDataItems contextName (Dataset.records dataset)])].
Proof.
  intros Hget Hne. rewrite (updateContextWithDataSet_run _ _ _ _ _ Hget).
  eexists _, _. split; [reflexivity|].
  unfold reconcileRequests. rewrite Hne. simpl.
  repeat (rewrite <- app_assoc; simpl). reflexivity.
Qed.

(** C5.  The responses of the bundled call are scanned once they are all
    there: the promise rejects with the one error that names the context
    as soon as a response is not a success, whatever its position and
    whatever the steps before it did remotely, and resolves when every
    response is a success.  Nothing but that error or that resolution
    reaches the caller. *)
Theorem updateContextWithDataSet_aggregate_error (contextName : string)
    (dataset : Dataset.t) (context : DataContext.t) (w w1 : World) :
  getDataContext normalizeDataContext contextName w = (Resolved context, w1) ->
  exists outcome w2 responses,
    updateContextWithDataSet normalizeDataContext contextName dataset w = (outcome, w2) /\
    responses
    = multipleResponses (host w1) (reconcileRequests contextName context dataset) /\
    cache w2 = cache w1 /\
    (Exists (λ response, success response = false) responses ->
     outcome = Rejected (Error ("Failed to update " +:+ contextName))) /\
    (Forall (λ response, success response = true) responses ->
     outcome = Resolved tt).
Proof.
  intros Hget. rewrite (updateContextWithDataSet_run _ _ _ _ _ Hget).
  eexists _, _, _. split; [reflexivity|]. split; [reflexivity|]. split; [reflexivity|].
  set (responses := multipleResponses _ _). split.
  - intros Hex. destruct (forallb success responses) eqn:Hall; [|reflexivity].
    rewrite forallb_forall in Hall. apply Exists_exists in Hex as (r & Hin & Hr).
    apply list_elem_of_In in Hin. rewrite (Hall r Hin) in Hr. discriminate.
  - intros Hall. destruct (forallb success responses) eqn:Hb; [reflexivity|].
    assert (forallb success responses = true) as Ht.
    { apply forallb_forall. intros r Hin. apply list_elem_of_In in Hin.
      rewrite Forall_forall in Hall. by apply Hall. }
    congruence.
Qed.
End IndexProperties.

(** ** The placeholder name *)

Lemma length_append (s1 s2 : string) :
  String.length (s1 +:+ s2) = String.length s1 + String.length s2.
Proof. induction s1 as [|a s1 IH]; simpl; [reflexivity | by rewrite IH]. Qed.

Lemma fold_left_concatNames_length (cs : list Collection.t) (acc : string) :
  String.length (fold_left concatNames cs acc)
  = String.length acc + sum_list_with (λ c, String.length (Collection.name c)) cs.
Proof.
  revert acc. induction cs as [|c cs IH]; intros acc; simpl; [lia|].
  rewrite IH. unfold concatNames. rewrite length_append. lia.
Qed.

Lemma placeholderName_length (context : DataContext.t) (dataset : Dataset.t) :
  String.length (placeholderName context dataset)
  = sum_list_with (λ c, String.length (Collection.name c))
      (DataContext.collections context ++ Dataset.collections dataset).
Proof.
  unfold placeholderName.
  rewrite length_append, !fold_left_concatNames_length, sum_list_with_app.
  simpl. lia.
Qed.

(** C4, as amended.  The placeholder name, the concatenation of the names
    of the context's collections followed by those of the requested
    collections, differs from the name of a current or requested collection
    whenever some other current or requested collection has a non-empty
    name; in particular whenever no name is empty and the two sequences
    together hold at least two collections. *)
Theorem placeholderName_distinct (context : DataContext.t) (dataset : Dataset.t)
    (before after : list Collection.t) (c : Collection.t) :
  DataContext.collections context ++ Dataset.collections dataset = before ++ c :: after ->
  (exists c', c' ∈ before ++ after /\ Collection.name c' <> "") ->
  placeholderName context dataset <> Collection.name c.
Proof.
  intros Hsplit (c' & Hin & Hname) Heq.
  apply (f_equal String.length) in Heq.
  rewrite placeholderName_length, Hsplit, sum_list_with_app in Heq. simpl in Heq.
  assert (String.length (Collection.name c') = 0) as Hzero.
  { assert (String.length (Collection.name c')
            <= sum_list_with (λ c, String.length (Collection.name c)) (before ++ after))
      as Hle.
    { clear -Hin. induction (before ++ after) as [|x xs IH]; [inversion Hin|].
      simpl. apply elem_of_cons in Hin as [->|Hin]; [lia|].
      specialize (IH Hin). lia. }
    rewrite sum_list_with_app in Hle. lia. }
  destruct (Collection.name c'); [by apply Hname | discriminate].
Qed.

Lemma placeholderName_distinct_witness :
  DataContext.collections Sample.stored
    ++ Dataset.collections (Dataset.mk [Sample.people; Sample.pets] [])
  = [Sample.people] ++ Sample.people :: [Sample.pets] /\
  (exists c', c' ∈ [Sample.people] ++ [Sample.pets] /\ Collection.name c' <> "") /\
  placeholderName Sample.stored (Dataset.mk [Sample.people; Sample.pets] [])
  <> Collection.name Sample.people.
Proof.
  assert (exists c', c' ∈ [Sample.people] ++ [Sample.pets] /\ Collection.name c' <> "")
    as Hother.
  { exists Sample.pets. split; [simpl; apply elem_of_cons; right; apply elem_of_cons; left; reflexivity|].
    simpl. discriminate. }
  split; [reflexivity|]. split; [exact Hother|].
  apply (placeholderName_distinct Sample.stored
           (Dataset.mk [Sample.people; Sample.pets] [])
           [Sample.people] [Sample.pets] Sample.people).
  - reflexivity.
  - exact Hother.
Defined.

(** C4, as stated, fails when every other name is empty or missing: with
    the one collection "people" in the context and no collection requested,
    the two sequences differ and the placeholder is named "people"; and so
    it is when the one collection requested has the empty name. *)
Lemma placeholderName_collides :
  (Util.collectionsEqual (DataContext.collections Sample.stored)
     (map Util.fillCollectionWithDefaults (Dataset.collections (Dataset.mk [] []))) = false /\
   Sample.people ∈ DataContext.collections Sample.stored /\
   placeholderName Sample.stored (Dataset.mk [] []) = Collection.name Sample.people) /\
  (Util.collectionsEqual (DataContext.collections Sample.stored)
     (map Util.fillCollectionWithDefaults
        (Dataset.collections (Dataset.mk [Collection.mk "" None None] []))) = false /\
   Sample.people ∈ DataContext.collections Sample.stored /\
   placeholderName Sample.stored (Dataset.mk [Collection.mk "" None None] [])
   = Collection.name Sample.people).
Proof.
  split; (split; [reflexivity|]);
    (split; [apply elem_of_cons; left; reflexivity | reflexivity]).
Qed.

(** ** The handler of host-initiated messages *)

(** *** The context name in the resource *)

Lemma index_bracket_cons (b : Ascii.ascii) (s : string) :
  String.index 0 "[" (String b s)
  = if Ascii.ascii_dec "["%char b then Some 0
    else match String.index 0 "[" s with Some n => Some (S n) | None => None end.
Proof.
  cbn [String.index String.prefix].
  destruct (Ascii.ascii_dec "["%char b); [|reflexivity].
  destruct s; reflexivity.
Qed.

Lemma search_bracket_app (before rest : string) :
  String.index 0 "[" before = None ->
  search_bracket (before +:+ String "["%char rest) = Z.of_nat (String.length before).
Proof.
  unfold search_bracket. induction before as [|a before IH]; intros Hnone.
  - change ("" +:+ String "["%char rest) with (String "["%char rest).
    rewrite index_bracket_cons.
    destruct (Ascii.ascii_dec "["%char "["%char); [reflexivity | congruence].
  - rewrite index_bracket_cons in Hnone.
    change (String a before +:+ String "["%char rest)
      with (String a (before +:+ String "["%char rest)).
    rewrite index_bracket_cons.
    destruct (Ascii.ascii_dec "["%char a); [discriminate|].
    destruct (String.index 0 "[" before) eqn:E; [discriminate|].
    specialize (IH eq_refl).
    destruct (String.index 0 "[" (before +:+ String "["%char rest));
      cbn [String.length]; lia.
Qed.

Lemma append_nil_l (s : string) : "" +:+ s = s.
Proof. reflexivity. Qed.

Lemma append_cons (a : ascii) (s t : string) : String a s +:+ t = String a (s +:+ t).
Proof. reflexivity. Qed.

Lemma substring_middle (a b c : string) :
  String.substring (String.length a) (String.length b) (a +:+ b +:+ c) = b.
Proof.
  induction a as [|x a IH]; cbn [String.length].
  - rewrite append_nil_l.
    induction b as [|y b IHb]; cbn [String.length]; rewrite ?append_nil_l, ?append_cons.
    + by destruct c.
    + cbn [String.substring]. by rewrite IHb.
  - rewrite append_cons. cbn [String.substring]. exact IH.
Qed.

(** A resource made of a bracket-free notice name followed by the context
    name in brackets yields that context name. *)
Lemma contextNameOf_bracketed (notice name : string) :
  String.index 0 "[" notice = None ->
  contextNameOf (notice +:+ String "["%char (name +:+ "]")) = name.
Proof.
  intros Hnone. unfold contextNameOf. rewrite search_bracket_app by assumption.
  unfold slice.
  assert (String.length (notice +:+ String "["%char (name +:+ "]"))
          = String.length notice + 1 + String.length name + 1) as Hlen.
  { rewrite length_append. cbn [String.length]. rewrite length_append. simpl. lia. }
  rewrite Hlen.
  destruct (Z.ltb_spec (Z.of_nat (String.length notice) + 1) 0); [lia|].
  destruct (Z.ltb_spec
              (Z.of_nat (String.length notice + 1 + String.length name + 1) - 1) 0); [lia|].
  replace (Z.to_nat _) with (String.length (notice +:+ "[")) at 1.
  2:{ rewrite length_append. simpl. lia. }
  replace (Z.to_nat _) with (String.length name).
  2:{ lia. }
  replace (notice +:+ String "["%char (name +:+ "]")) with ((notice +:+ "[") +:+ name +:+ "]").
  2:{ clear. induction notice as [|a n IH]; rewrite ?append_cons, ?append_nil_l;
      [reflexivity | by rewrite IH]. }
  apply substring_middle.
Qed.

(** *** The loop over the batch *)

Lemma invalidateCasesOf_run (value : JsObject.t) (w : World) :
  invalidateCasesOf value w
  = (Resolved tt,
     {| host := host w;
        cache := fold_left (λ c id, Cache.invalidateCase id c) (listedCaseIDs value) (cache w);
        trace := trace w |}).
Proof.
  destruct w as [h c t]. destruct value as [op res].
  unfold invalidateCasesOf, listedCaseIDs, is_operation. simpl.
  destruct op as [o|o|]; [reflexivity| |reflexivity].
  destruct o; simpl; try reflexivity;
    destruct res as [[[ids|]]|]; reflexivity.
Qed.

(** The loop over a batch whose elements are all objects: it ends with the
    two flags accumulated and with the listed cases invalidated. *)
Lemma scanValues_objects (ops : list JsObject.t) :
  forall (contextUpdate contextListUpdate : bool) (w : World),
    scanValues (map Some ops) contextUpdate contextListUpdate w
    = (Resolved
         (contextUpdate
          || existsb (λ o, includes mutatingOperations (JsObject.operation o)) ops,
          contextListUpdate
          || existsb (λ o, is_operation (JsObject.operation o) UpdateContext) ops),
       {| host := host w;
          cache := fold_left (λ c id, Cache.invalidateCase id c)
                     (concat (map listedCaseIDs ops)) (cache w);
          trace := trace w |}).
Proof.
  induction ops as [|o ops IH]; intros cu clu w.
  - destruct w. simpl. by rewrite !orb_false_r.
  - simpl. unfold mbind, M_bind. rewrite invalidateCasesOf_run, IH. simpl.
    by rewrite fold_left_app, !orb_assoc.
Qed.

Lemma invalidated_cases_lookup (ids : list Z) (c : Cache.t) (id : Z) :
  Cache.getCase id (fold_left (λ c id, Cache.invalidateCase id c) ids c)
  = if bool_decide (id ∈ ids) then None else Cache.getCase id c.
Proof.
  revert c. induction ids as [|i ids IH]; intros c; cbn [fold_left].
  - case_bool_decide; [set_solver | reflexivity].
  - rewrite IH. unfold Cache.getCase, Cache.invalidateCase. simpl.
    destruct (decide (id = i)) as [->|Hne].
    + rewrite lookup_delete_eq.
      rewrite (bool_decide_eq_true_2 (i ∈ i :: ids)) by (apply elem_of_cons; by left).
      by destruct (bool_decide (i ∈ ids)).
    + rewrite lookup_delete_ne by congruence.
      rewrite (bool_decide_ext (id ∈ i :: ids) (id ∈ ids)); [reflexivity|].
      rewrite elem_of_cons. tauto.
Qed.

Lemma invalidated_cases_frame (ids : list Z) (c : Cache.t) :
  Cache.contexts (fold_left (λ c id, Cache.invalidateCase id c) ids c) = Cache.contexts c /\
  Cache.records (fold_left (λ c id, Cache.invalidateCase id c) ids c) = Cache.records c.
Proof.
  revert c. induction ids as [|i ids IH]; intros c; simpl; [auto|].
  destruct (IH (Cache.invalidateCase i c)). auto.
Qed.

Lemma mutating_is_not_UpdateContext (v : OperationValue) :
  includes mutatingOperations v = true -> is_operation v UpdateContext = false.
Proof. destruct v as [o|o|]; [reflexivity| |reflexivity]. destruct o; vm_compute; congruence. Qed.

Lemma UpdateContext_is_not_mutating :
  includes mutatingOperations (operation_context UpdateContext) = false.
Proof. vm_compute. reflexivity. Qed.

Lemma existsb_all {A} (f : A -> bool) (l : list A) :
  l <> [] -> Forall (λ x, f x = true) l -> existsb f l = true.
Proof.
  intros Hne Hall. destruct l as [|x l]; [congruence|].
  simpl. by rewrite (Forall_inv Hall).
Qed.

Lemma existsb_none {A} (f : A -> bool) (l : list A) :
  Forall (λ x, f x = false) l -> existsb f l = false.
Proof. induction 1 as [|x l Hx _ IH]; simpl; [reflexivity | by rewrite Hx, IH]. Qed.

Lemma all_objects (items : list (option JsObject.t)) :
  hasMissingElement (array items) = false -> exists ops, items = map Some ops.
Proof.
  simpl. induction items as [|[o|] items IH]; simpl; intros H.
  - by exists [].
  - destruct (IH H) as [ops ->]. by exists (o :: ops).
  - discriminate.
Qed.

Lemma acknowledgements_app (t1 t2 : list Event) :
  acknowledgements (t1 ++ t2) = acknowledgements t1 ++ acknowledgements t2.
Proof. apply omap_app. Qed.

Section EndpointProperties.
Variables DocumentChangeNotice DataContextChangeNotice : string.

Local Abbreviation handler :=
  (codapRequestHandler DocumentChangeNotice DataContextChangeNotice).

(** What the handler does with a context-change notice whose values are
    an array of objects. *)
Lemma codapRequestHandler_batch (resource : string) (ops : list JsObject.t) (w : World) :
  startsWith resource DataContextChangeNotice = true ->
  handler (CodapInitiatedCommand.mk Notify resource (array (map Some ops))) w
  = let contextUpdate :=
      existsb (λ o, includes mutatingOperations (JsObject.operation o)) ops in
    let contextListUpdate :=
      existsb (λ o, is_operation (JsObject.operation o) UpdateContext) ops in
    let scanned :=
      fold_left (λ c id, Cache.invalidateCase id c)
        (concat (map listedCaseIDs ops)) (cache w) in
    (Resolved tt,
     {| host := host w;
        cache := if contextUpdate
                 then Cache.invalidateContext (contextNameOf resource) scanned
                 else scanned;
        trace := trace w
                 ++ (if contextUpdate
                     then [callUpdateListenersForContext (contextNameOf resource)]
                     else [])
                 ++ (if contextListUpdate then [callAllContextListeners] else [])
                 ++ [callback ok] |}).
Proof.
  intros Hprefix. unfold codapRequestHandler.
  cbn [CodapInitiatedCommand.action CodapInitiatedCommand.resource
       CodapInitiatedCommand.values].
  rewrite (bool_decide_eq_true_2 (Notify = Notify)) by reflexivity.
  rewrite Hprefix. cbn [negb].
  destruct (bool_decide (resource = DocumentChangeNotice));
    unfold mbind, M_bind, values_operation, resolve, mret, M_ret;
    rewrite scanValues_objects; cbn [orb];
    destruct (existsb _ ops), (existsb _ ops);
    unfold writeCache, emit, withEvent, withCache; cbn [host cache trace];
    rewrite <- ?app_assoc; reflexivity.
Qed.

(** C6.  A context-change batch that holds only operations of
    [mutatingOperations] (only a create-attribute operation, say) makes
    the handler invalidate the cache of the context named in the resource
    and call the listeners of that context once, and the listeners of the
    context list not at all; a batch that holds only update-context
    operations makes it call the listeners of the context list and leaves
    the cache as it is. *)
Theorem notification_classification (resource : string) (ops : list JsObject.t)
    (w : World) :
  startsWith resource DataContextChangeNotice = true ->
  ops <> [] ->
  (Forall (λ o, includes mutatingOperations (JsObject.operation o) = true) ops ->
   exists w',
     handler (CodapInitiatedCommand.mk Notify resource (array (map Some ops))) w
       = (Resolved tt, w') /\
     trace w'
       = trace w ++ [callUpdateListenersForContext (contextNameOf resource); callback ok] /\
     cache w'
       = Cache.invalidateContext (contextNameOf resource)
           (fold_left (λ c id, Cache.invalidateCase id c)
              (concat (map listedCaseIDs ops)) (cache w)) /\
     Cache.getContext (contextNameOf resource) (cache w') = None /\
     Cache.getRecords (contextNameOf resource) (cache w') = None) /\
  (Forall (λ o, JsObject.operation o = operation_context UpdateContext) ops ->
   exists w',
     handler (CodapInitiatedCommand.mk Notify resource (array (map Some ops))) w
       = (Resolved tt, w') /\
     trace w' = trace w ++ [callAllContextListeners; callback ok] /\
     cache w' = cache w).
Proof.
  intros Hprefix Hne. split; intros Hall; rewrite codapRequestHandler_batch by assumption;
    cbv zeta.
  - rewrite (existsb_all _ ops Hne Hall).
    rewrite (existsb_none (λ o, is_operation (JsObject.operation o) UpdateContext) ops).
    2:{ eapply Forall_impl; [exact Hall|]. intros o. apply mutating_is_not_UpdateContext. }
    eexists. split; [reflexivity|]. cbn [trace cache]. repeat split.
    + unfold Cache.getContext, Cache.invalidateContext. cbn. apply lookup_delete_eq.
    + unfold Cache.getRecords, Cache.invalidateContext. cbn. apply lookup_delete_eq.
  - rewrite (existsb_none (λ o, includes mutatingOperations (JsObject.operation o)) ops).
    2:{ eapply Forall_impl; [exact Hall|]. intros o ->. apply UpdateContext_is_not_mutating. }
    rewrite (existsb_all (λ o, is_operation (JsObject.operation o) UpdateContext) ops Hne).
    2:{ eapply Forall_impl; [exact Hall|]. intros o ->. reflexivity. }
    assert (concat (map listedCaseIDs ops) = []) as ->.
    { clear -Hall. induction Hall as [|o ops Ho _ IH]; [reflexivity|].
      simpl. rewrite IH. unfold listedCaseIDs. rewrite Ho. reflexivity. }
    eexists. split; [reflexivity|]. cbn. auto.
Qed.

(** C7.  Whatever the operations of a context-change batch are, the case
    store afterwards lacks exactly the case ids listed in the result
    payloads of its delete-cases and update-cases operations: each of
    them is absent, and every other id holds what it held before. *)
Theorem case_invalidation_scoping (resource : string) (ops : list JsObject.t)
    (w : World) :
  startsWith resource DataContextChangeNotice = true ->
  exists w',
    handler (CodapInitiatedCommand.mk Notify resource (array (map Some ops))) w
      = (Resolved tt, w') /\
    (forall o caseIDs id,
       o ∈ ops ->
       JsObject.operation o = operation_context DeleteCases
       \/ JsObject.operation o = operation_context UpdateCases ->
       JsObject.result o = Some (Result.mk (Some caseIDs)) ->
       id ∈ caseIDs ->
       Cache.getCase id (cache w') = None) /\
    (forall id,
       id ∉ concat (map listedCaseIDs ops) ->
       Cache.getCase id (cache w') = Cache.getCase id (cache w)) /\
    (forall id,
       Cache.getCase id (cache w')
       = if bool_decide (id ∈ concat (map listedCaseIDs ops))
         then None else Cache.getCase id (cache w)).
Proof.
  intros Hprefix. rewrite codapRequestHandler_batch by assumption. cbv zeta.
  eexists. split; [reflexivity|]. cbn [cache].
  assert (forall id,
            Cache.getCase id
              (if existsb (λ o, includes mutatingOperations (JsObject.operation o)) ops
               then Cache.invalidateContext (contextNameOf resource)
                      (fold_left (λ c id, Cache.invalidateCase id c)
                         (concat (map listedCaseIDs ops)) (cache w))
               else fold_left (λ c id, Cache.invalidateCase id c)
                      (concat (map listedCaseIDs ops)) (cache w))
            = if bool_decide (id ∈ concat (map listedCaseIDs ops))
              then None else Cache.getCase id (cache w)) as Hlookup.
  { intros id. rewrite <- invalidated_cases_lookup. by destruct (existsb _ ops). }
  split; [|split].
  - intros o caseIDs id Hin Hop Hres Hid. rewrite Hlookup.
    rewrite bool_decide_eq_true_2; [reflexivity|].
    apply list_elem_of_In, in_concat. exists caseIDs.
    split; [|by apply list_elem_of_In].
    apply in_map_iff. exists o. split; [|by apply list_elem_of_In].
    unfold listedCaseIDs. rewrite Hres. by destruct Hop as [-> | ->].
  - intros id Hid. rewrite Hlookup. by rewrite bool_decide_eq_false_2.
  - exact Hlookup.
Qed.

(** C9, as amended.  On every host-initiated message that does not make
    it read a property of a missing value, the handler throws nothing and
    acknowledges the message once, with a success response: so it does
    for every message whose action is not a notification, for every
    resource it does not recognise, for a context-change notice whose
    values are not an array, and for every notification whose values are
    an object or an array of objects. *)
Theorem codapRequestHandler_acknowledges (command : CodapInitiatedCommand.t)
    (w : World) :
  readsMissing DocumentChangeNotice DataContextChangeNotice command = false ->
  exists w',
    handler command w = (Resolved tt, w') /\
    acknowledgements (trace w') = acknowledgements (trace w) ++ [ok].
Proof.
  destruct command as [action resource values]. unfold readsMissing.
  cbn [CodapInitiatedCommand.action CodapInitiatedCommand.resource
       CodapInitiatedCommand.values].
  destruct (decide (action = Notify)) as [->|Hact].
  2:{ intros _. unfold codapRequestHandler.
      cbn [CodapInitiatedCommand.action].
      rewrite (bool_decide_eq_false_2 (action = Notify)) by assumption. cbn [negb].
      eexists. split; [reflexivity|]. cbn. by rewrite acknowledgements_app. }
  rewrite (bool_decide_eq_true_2 (Notify = Notify)) by reflexivity.
  destruct (bool_decide (resource = DocumentChangeNotice)) eqn:Hdoc;
    destruct (startsWith resource DataContextChangeNotice) eqn:Hprefix;
    destruct values as [|o|items]; intros Hmiss; simpl in Hmiss; try discriminate.
  all: try (destruct (all_objects items Hmiss) as [ops ->];
            rewrite codapRequestHandler_batch by assumption; cbv zeta;
            eexists; split; [reflexivity|]; cbn [trace];
            rewrite !acknowledgements_app;
            by destruct (existsb _ ops), (existsb _ ops)).
  all: unfold codapRequestHandler;
    cbn [CodapInitiatedCommand.action CodapInitiatedCommand.resource
         CodapInitiatedCommand.values];
    rewrite (bool_decide_eq_true_2 (Notify = Notify)) by reflexivity;
    rewrite Hprefix, Hdoc; cbn [negb];
    try (destruct o as [[[]|?|] ?]);
    (eexists; split; [reflexivity|]; unfold acknowledgements; cbn;
     rewrite ?omap_app; cbn; rewrite ?app_nil_r; reflexivity).
Qed.
End EndpointProperties.

(** ** The properties on the sample data *)

Lemma getDataContext_through_cache_witness :
  Cache.getContext "Survey" (cache Sample.cached) = Some Sample.stored /\
  getDataContext Sample.normalizeDataContext "Survey" Sample.cached
    = (Resolved Sample.stored, Sample.cached) /\
  Cache.getContext "Survey" (cache Sample.world) = None /\
  GetContextResponse.success (getContextResponse (host Sample.world) "Survey") = true /\
  exists w',
    getDataContext Sample.normalizeDataContext "Survey" Sample.world
      = (Resolved (Sample.normalizeDataContext
                     (GetContextResponse.values
                        (getContextResponse (host Sample.world) "Survey"))), w') /\
    trace w' = trace Sample.world ++ [phone_call (Request Get (resourceFromContext "Survey"))] /\
    cache w'
      = Cache.setContext "Survey"
          (Sample.normalizeDataContext
             (GetContextResponse.values (getContextResponse (host Sample.world) "Survey")))
          (cache Sample.world) /\
    Cache.getContext "Survey" (cache w')
      = Some (Sample.normalizeDataContext
                (GetContextResponse.values (getContextResponse (host Sample.world) "Survey"))).
Proof.
  split; [reflexivity|]. split.
  { apply (proj1 (getDataContext_through_cache Sample.normalizeDataContext
                    "Survey" Sample.cached)). reflexivity. }
  split; [reflexivity|]. split; [reflexivity|].
  apply (proj2 (getDataContext_through_cache Sample.normalizeDataContext
                  "Survey" Sample.world)); reflexivity.
Defined.

Lemma failed_fetch_writes_nothing_witness :
  (Cache.getContext "Census" (cache Sample.world) = None /\
   GetContextResponse.success (getContextResponse (host Sample.world) "Census") = false /\
   exists w',
     getDataContext Sample.normalizeDataContext "Census" Sample.world
       = (Rejected (Error ("Failed to get context " +:+ "Census")), w') /\
     cache w' = cache Sample.world /\
     Cache.getContext "Census" (cache w') = None) /\
  (Cache.getCase 4 (cache Sample.world) = None /\
   GetCaseResponse.success (getCaseResponse (host Sample.world) "Survey" 4) = false /\
   exists w',
     getCaseById "Survey" 4 Sample.world
       = (Rejected (Error ("Failed to get case in " +:+ "Survey"
                           +:+ " with id " +:+ pretty 4%Z)), w') /\
     cache w' = cache Sample.world /\
     Cache.getCase 4 (cache w') = None).
Proof.
  split.
  - split; [reflexivity|]. split; [reflexivity|].
    apply (proj1 (failed_fetch_writes_nothing Sample.normalizeDataContext Sample.world)
             "Census"); reflexivity.
  - split; [reflexivity|]. split; [reflexivity|].
    apply (proj2 (failed_fetch_writes_nothing Sample.normalizeDataContext Sample.world)
             "Survey" 4%Z); reflexivity.
Defined.

Lemma updateContextWithDataSet_same_collections_witness :
  getDataContext Sample.normalizeDataContext "Survey" Sample.cached
    = (Resolved Sample.stored, Sample.cached) /\
  Util.collectionsEqual (DataContext.collections Sample.stored)
    (map Util.fillCollectionWithDefaults
       (Dataset.collections
          (Dataset.mk [Collection.mk "people" (Some ["name"; "age"]) None] [])))
  = true /\
  exists outcome w2 requests,
    updateContextWithDataSet Sample.normalizeDataContext "Survey"
      (Dataset.mk [Collection.mk "people" (Some ["name"; "age"]) None] []) Sample.cached
      = (outcome, w2) /\
    trace w2 = trace Sample.cached ++ [phone_call_multiple requests] /\
    requests
    = map (λ collection, Actions_deleteAllCases "Survey" (Collection.name collection))
          (DataContext.collections Sample.stored)
      ++ [Actions_insertDataItems "Survey"
            (Dataset.records
               (Dataset.mk [Collection.mk "people" (Some ["name"; "age"]) None] []))] /\
    List.filter isCollectionManagement requests = [] /\
    length (List.filter isInsertDataItems requests) = 1.
Proof.
  split; [reflexivity|]. split; [reflexivity|].
  apply (updateContextWithDataSet_same_collections Sample.normalizeDataContext "Survey"
           (Dataset.mk [Collection.mk "people" (Some ["name"; "age"]) None] [])
           Sample.stored Sample.cached Sample.cached); reflexivity.
Defined.

Lemma updateContextWithDataSet_changed_collections_witness :
  getDataContext Sample.normalizeDataContext "Survey" Sample.cached
    = (Resolved Sample.stored, Sample.cached) /\
  Util.collectionsEqual (DataContext.collections Sample.stored)
    (map Util.fillCollectionWithDefaults
       (Dataset.collections (Dataset.mk [Sample.people; Sample.pets] [])))
  = false /\
  exists outcome w2,
    updateContextWithDataSet Sample.normalizeDataContext "Survey"
      (Dataset.mk [Sample.people; Sample.pets] []) Sample.cached = (outcome, w2) /\
    trace w2
    = trace Sample.cached
      ++ [phone_call_multiple
            (map (λ collection,
                    Actions_deleteAllCases "Survey" (Collection.name collection))
                 (DataContext.collections Sample.stored)
             ++ [Actions_createCollections "Survey"
                   [Collection.mk
                      (placeholderName Sample.stored
                         (Dataset.mk [Sample.people; Sample.pets] []))
                      None (Some ∅)]]
             ++ map (λ collection,
                       Actions_deleteCollection "Survey" (Collection.name collection))
                    (DataContext.collections Sample.stored)
             ++ [Actions_createCollections "Survey"
                   (Dataset.collections (Dataset.mk [Sample.people; Sample.pets] []));
                 Actions_deleteCollection "Survey"
                   (placeholderName Sample.stored
                      (Dataset.mk [Sample.people; Sample.pets] []));
                 Actions_insertDataItems "Survey"
                   (Dataset.records (Dataset.mk [Sample.people; Sample.pets] []))])].
Proof.
  split; [reflexivity|]. split; [reflexivity|].
  apply (updateContextWithDataSet_changed_collections Sample.normalizeDataContext "Survey"
           (Dataset.mk [Sample.people; Sample.pets] [])
           Sample.stored Sample.cached Sample.cached); reflexivity.
Defined.

Lemma updateContextWithDataSet_aggregate_error_witness :
  getDataContext Sample.normalizeDataContext "Survey" Sample.failing
    = (Resolved Sample.stored, Sample.failing) /\
  map success
    (multipleResponses (host Sample.failing)
       (reconcileRequests "Survey" Sample.stored
          (Dataset.mk [Sample.people; Sample.pets] [])))
  = [true; true; false; true; true; true] /\
  fst (updateContextWithDataSet Sample.normalizeDataContext "Survey"
         (Dataset.mk [Sample.people; Sample.pets] []) Sample.failing)
  = Rejected (Error "Failed to update Survey") /\
  exists outcome w2 responses,
    updateContextWithDataSet Sample.normalizeDataContext "Survey"
      (Dataset.mk [Sample.people; Sample.pets] []) Sample.failing = (outcome, w2) /\
    responses
    = multipleResponses (host Sample.failing)
        (reconcileRequests "Survey" Sample.stored
           (Dataset.mk [Sample.people; Sample.pets] [])) /\
    cache w2 = cache Sample.failing /\
    (Exists (λ response, success response = false) responses ->
     outcome = Rejected (Error ("Failed to update " +:+ "Survey"))) /\
    (Forall (λ response, success response = true) responses ->
     outcome = Resolved tt).
Proof.
  split; [reflexivity|]. split; [reflexivity|]. split; [reflexivity|].
  apply (updateContextWithDataSet_aggregate_error Sample.normalizeDataContext "Survey"
           (Dataset.mk [Sample.people; Sample.pets] [])
           Sample.stored Sample.failing Sample.failing); reflexivity.
Defined.

Lemma notification_classification_witness :
  startsWith "dataContextChangeNotice[Survey]" Sample.DataContextChangeNotice = true /\
  contextNameOf "dataContextChangeNotice[Survey]" = "Survey" /\
  [Sample.createAttribute] <> [] /\
  Forall (λ o, includes mutatingOperations (JsObject.operation o) = true)
    [Sample.createAttribute] /\
  (exists w',
     codapRequestHandler Sample.DocumentChangeNotice Sample.DataContextChangeNotice
       (CodapInitiatedCommand.mk Notify "dataContextChangeNotice[Survey]"
          (array (map Some [Sample.createAttribute]))) Sample.cached
       = (Resolved tt, w') /\
     trace w'
       = trace Sample.cached
         ++ [callUpdateListenersForContext (contextNameOf "dataContextChangeNotice[Survey]");
             callback ok] /\
     cache w'
       = Cache.invalidateContext (contextNameOf "dataContextChangeNotice[Survey]")
           (fold_left (λ c id, Cache.invalidateCase id c)
              (concat (map listedCaseIDs [Sample.createAttribute])) (cache Sample.cached)) /\
     Cache.getContext (contextNameOf "dataContextChangeNotice[Survey]") (cache w') = None /\
     Cache.getRecords (contextNameOf "dataContextChangeNotice[Survey]") (cache w') = None) /\
  [Sample.updateContext] <> [] /\
  Forall (λ o, JsObject.operation o = operation_context UpdateContext)
    [Sample.updateContext] /\
  (exists w',
     codapRequestHandler Sample.DocumentChangeNotice Sample.DataContextChangeNotice
       (CodapInitiatedCommand.mk Notify "dataContextChangeNotice[Survey]"
          (array (map Some [Sample.updateContext]))) Sample.cached
       = (Resolved tt, w') /\
     trace w' = trace Sample.cached ++ [callAllContextListeners; callback ok] /\
     cache w' = cache Sample.cached).
Proof.
  assert ([Sample.createAttribute] <> []) as Hne1 by discriminate.
  assert ([Sample.updateContext] <> []) as Hne2 by discriminate.
  assert (Forall (λ o, includes mutatingOperations (JsObject.operation o) = true)
            [Sample.createAttribute]) as Hall1.
  { constructor; [reflexivity | constructor]. }
  assert (Forall (λ o, JsObject.operation o = operation_context UpdateContext)
            [Sample.updateContext]) as Hall2.
  { constructor; [reflexivity | constructor]. }
  split; [reflexivity|]. split; [reflexivity|]. split; [exact Hne1|]. split; [exact Hall1|].
  split.
  { exact (proj1 (notification_classification Sample.DocumentChangeNotice
                    Sample.DataContextChangeNotice "dataContextChangeNotice[Survey]"
                    [Sample.createAttribute] Sample.cached eq_refl Hne1) Hall1). }
  split; [exact Hne2|]. split; [exact Hall2|].
  exact (proj2 (notification_classification Sample.DocumentChangeNotice
                  Sample.DataContextChangeNotice "dataContextChangeNotice[Survey]"
                  [Sample.updateContext] Sample.cached eq_refl Hne2) Hall2).
Defined.

Lemma case_invalidation_scoping_witness :
  startsWith "dataContextChangeNotice[Survey]" Sample.DataContextChangeNotice = true /\
  concat (map listedCaseIDs [Sample.deleteCases; Sample.updateContext]) = [5; 9]%Z /\
  exists w',
    codapRequestHandler Sample.DocumentChangeNotice Sample.DataContextChangeNotice
      (CodapInitiatedCommand.mk Notify "dataContextChangeNotice[Survey]"
         (array (map Some [Sample.deleteCases; Sample.updateContext]))) Sample.cached
      = (Resolved tt, w') /\
    (forall o caseIDs id,
       o ∈ [Sample.deleteCases; Sample.updateContext] ->
       JsObject.operation o = operation_context DeleteCases
       \/ JsObject.operation o = operation_context UpdateCases ->
       JsObject.result o = Some (Result.mk (Some caseIDs)) ->
       id ∈ caseIDs ->
       Cache.getCase id (cache w') = None) /\
    (forall id,
       id ∉ concat (map listedCaseIDs [Sample.deleteCases; Sample.updateContext]) ->
       Cache.getCase id (cache w') = Cache.getCase id (cache Sample.cached)) /\
    (forall id,
       Cache.getCase id (cache w')
       = if bool_decide
              (id ∈ concat (map listedCaseIDs [Sample.deleteCases; Sample.updateContext]))
         then None else Cache.getCase id (cache Sample.cached)).
Proof.
  split; [reflexivity|]. split; [reflexivity|].
  apply (case_invalidation_scoping Sample.DocumentChangeNotice
           Sample.DataContextChangeNotice "dataContextChangeNotice[Survey]"
           [Sample.deleteCases; Sample.updateContext] Sample.cached).
  reflexivity.
Defined.

Lemma codapRequestHandler_acknowledges_witness :
  readsMissing Sample.DocumentChangeNotice Sample.DataContextChangeNotice
    (CodapInitiatedCommand.mk Notify "dataContextChangeNotice[Survey]"
       (object Sample.createAttribute)) = false /\
  exists w',
    codapRequestHandler Sample.DocumentChangeNotice Sample.DataContextChangeNotice
      (CodapInitiatedCommand.mk Notify "dataContextChangeNotice[Survey]"
         (object Sample.createAttribute)) Sample.world
      = (Resolved tt, w') /\
    acknowledgements (trace w') = acknowledgements (trace Sample.world) ++ [ok].
Proof.
  split; [reflexivity|].
  apply (codapRequestHandler_acknowledges Sample.DocumentChangeNotice
           Sample.DataContextChangeNotice
           (CodapInitiatedCommand.mk Notify "dataContextChangeNotice[Survey]"
              (object Sample.createAttribute)) Sample.world).
  reflexivity.
Defined.

(** C9, as stated, fails on a notification that names the document-change
    resource and carries no values: reading [operation] of the missing
    values throws, and the callback is never called. *)
Lemma codapRequestHandler_throws_on_missing_values :
  exists w',
    codapRequestHandler Sample.DocumentChangeNotice Sample.DataContextChangeNotice
      (CodapInitiatedCommand.mk Notify Sample.DocumentChangeNotice undefined) Sample.world
      = (Rejected TypeError, w') /\
    acknowledgements (trace w') = [].
Proof. eexists. split; reflexivity. Qed.

(** * Further properties *)

(** ** Fetching through the cache, twice *)

(** X1.  Once [getCaseById] has resolved with a case, asking for the same
    id again, for whatever context, resolves with the same case and changes
    nothing: no second call goes out. *)
Theorem getCaseById_again (context context' : string) (id : Z)
    (c : ReturnedCase.t) (w w1 : World) :
  getCaseById context id w = (Resolved c, w1) ->
  getCaseById context' id w1 = (Resolved c, w1).
Proof.
  unfold getCaseById. run_M.
  destruct (Cache.getCase id (cache w)) as [c0|] eqn:Hc.
  - intros [= -> <-]. by rewrite Hc.
  - destruct (GetCaseResponse.success (getCaseResponse (host w) context id));
      [|discriminate].
    intros [= <- <-]. simpl. unfold Cache.getCase, Cache.setCase. simpl.
    by rewrite lookup_insert_eq.
Qed.

Lemma getCaseById_again_witness :
  getCaseById "Survey" 2 Sample.world
  = (Resolved Sample.mid, snd (getCaseById "Survey" 2 Sample.world)) /\
  getCaseById "Census" 2 (snd (getCaseById "Survey" 2 Sample.world))
  = (Resolved Sample.mid, snd (getCaseById "Survey" 2 Sample.world)).
Proof.
  split; [reflexivity|].
  apply (getCaseById_again "Survey" "Census" 2 Sample.mid Sample.world). reflexivity.
Defined.

Section FetchTwice.
Variable normalizeDataContext : DataContext.t -> DataContext.t.

Lemma getDataContext_resolved_cached (contextName : string) (context : DataContext.t)
    (w w1 : World) :
  getDataContext normalizeDataContext contextName w = (Resolved context, w1) ->
  Cache.getContext contextName (cache w1) = Some context /\ host w1 = host w.
Proof.
  unfold getDataContext. run_M.
  destruct (Cache.getContext contextName (cache w)) as [c0|] eqn:Hc.
  - intros [= -> <-]. auto.
  - destruct (GetContextResponse.success (getContextResponse (host w) contextName));
      [|discriminate].
    intros [= <- <-]. simpl. unfold Cache.getContext, Cache.setContext. simpl.
    by rewrite lookup_insert_eq.
Qed.

(** X2.  Once [getDataContext] has resolved with a context, asking for the
    same name again resolves with the same context and changes nothing: no
    second call goes out. *)
Theorem getDataContext_again (contextName : string) (context : DataContext.t)
    (w w1 : World) :
  getDataContext normalizeDataContext contextName w = (Resolved context, w1) ->
  getDataContext normalizeDataContext contextName w1 = (Resolved context, w1).
Proof.
  intros Hget. destruct (getDataContext_resolved_cached _ _ _ _ Hget) as [Hc _].
  unfold getDataContext. run_M. by rewrite Hc.
Qed.
End FetchTwice.

Lemma getDataContext_again_witness :
  getDataContext Sample.normalizeDataContext "Survey" Sample.world
  = (Resolved Sample.stored,
     snd (getDataContext Sample.normalizeDataContext "Survey" Sample.world)) /\
  getDataContext Sample.normalizeDataContext "Survey"
    (snd (getDataContext Sample.normalizeDataContext "Survey" Sample.world))
  = (Resolved Sample.stored,
     snd (getDataContext Sample.normalizeDataContext "Survey" Sample.world)).
Proof.
  split; [reflexivity|].
  apply (getDataContext_again Sample.normalizeDataContext "Survey" Sample.stored
           Sample.world).
  reflexivity.
Defined.

(** ** Flattening: what it costs and what it leaves behind *)

Lemma getCaseById_effects w context id p :
  lookupById w context id = Some p ->
  exists w' calls,
    getCaseById context id w = (Resolved p, w') /\
    host w' = host w /\
    trace w' = trace w ++ calls /\
    length calls <= 1 /\
    Forall (isCaseFetch context) calls /\
    Cache.contexts (cache w') = Cache.contexts (cache w) /\
    Cache.records (cache w') = Cache.records (cache w) /\
    Cache.cases (cache w) ⊆ Cache.cases (cache w') /\
    Cache.getCase id (cache w') = Some p /\
    forall id', lookupById w' context id' = lookupById w context id'.
Proof.
  intros Hfound.
  destruct (getCaseById_found w context id p Hfound) as (w' & Hrun & Hhost & Hext).
  exists w'. revert Hrun Hfound. unfold lookupById, getCaseById. run_M.
  destruct (Cache.getCase id (cache w)) as [c|] eqn:Hc.
  - intros [= -> <-] _. exists []. rewrite app_nil_r. simpl.
    repeat split; auto.
  - destruct (GetCaseResponse.success (getCaseResponse (host w) context id));
      [|discriminate].
    intros [= <- <-] _.
    exists [phone_call (Request Get (caseById context id))]. simpl.
    repeat split; auto.
    + constructor; [by exists id | constructor].
    + apply insert_subseteq. exact Hc.
    + unfold Cache.getCase. simpl. apply lookup_insert_eq.
Qed.

Lemma cachedChain_weaken w w' c ancestors :
  Cache.cases (cache w) ⊆ Cache.cases (cache w') ->
  cachedChain w c ancestors -> cachedChain w' c ancestors.
Proof.
  intros Hsub Hch. induction Hch.
  - by constructor.
  - econstructor; eauto. unfold Cache.getCase in *. by eapply lookup_weaken.
Qed.

Lemma dataItemFromChildCase_effects context ancestors :
  forall fuel w c,
    chain w context c ancestors ->
    length ancestors < fuel ->
    exists w' calls,
      dataItemFromChildCase fuel context c w = (Resolved (flattened c ancestors), w') /\
      host w' = host w /\
      trace w' = trace w ++ calls /\
      length calls <= length ancestors /\
      Forall (isCaseFetch context) calls /\
      Cache.contexts (cache w') = Cache.contexts (cache w) /\
      Cache.records (cache w') = Cache.records (cache w) /\
      Cache.cases (cache w) ⊆ Cache.cases (cache w') /\
      cachedChain w' c ancestors.
Proof.
  induction ancestors as [|p rest IH]; intros fuel w c Hch Hfuel;
    destruct fuel as [|fuel]; simpl in Hfuel; try lia; inversion Hch; subst.
  - simpl. rewrite H. exists w, []. rewrite app_nil_r.
    repeat split; auto. by constructor.
  - simpl. rewrite H1.
    destruct (getCaseById_effects _ _ _ _ H3)
      as (w1 & calls1 & Hget & Hh1 & Ht1 & Hn1 & Hf1 & Hc1 & Hr1 & Hs1 & Hp1 & Hl1).
    destruct (IH fuel w1 p)
      as (w2 & calls2 & Hrec & Hh2 & Ht2 & Hn2 & Hf2 & Hc2 & Hr2 & Hs2 & Hch2).
    { by apply (chain_lookup_ext w). }
    { lia. }
    exists w2, (calls1 ++ calls2). unfold mbind, M_bind. rewrite Hget, Hrec.
    split; [reflexivity|]. split; [congruence|].
    split; [by rewrite Ht2, Ht1, app_assoc|].
    split; [rewrite length_app; simpl; lia|].
    split; [by apply Forall_app|].
    split; [congruence|]. split; [congruence|].
    split; [by etrans|].
    econstructor; eauto. unfold Cache.getCase in *. by eapply lookup_weaken.
Qed.

(** X3.  Flattening a case whose ancestors are all in the case store
    resolves, once the fuel exceeds their number, without any call on the
    phone and without any write: the world is what it was. *)
Theorem dataItemFromChildCase_cached (context : string) (c : ReturnedCase.t)
    (ancestors : list ReturnedCase.t) (fuel : nat) (w : World) :
  cachedChain w c ancestors ->
  length ancestors < fuel ->
  dataItemFromChildCase fuel context c w = (Resolved (flattened c ancestors), w).
Proof.
  intros Hch. revert fuel. induction Hch as [c Hroot|c parentId p rest Hpar Hget _ IH];
    intros [|fuel] Hfuel; simpl in Hfuel; try lia; simpl.
  - by rewrite Hroot.
  - rewrite Hpar. unfold getCaseById. run_M. rewrite Hget. simpl.
    rewrite IH by lia. reflexivity.
Qed.

Lemma dataItemFromChildCase_cached_witness :
  cachedChain Scenario.warm Sample.leaf [Sample.mid; Sample.root] /\
  length [Sample.mid; Sample.root] < 3 /\
  dataItemFromChildCase 3 "Survey" Sample.leaf Scenario.warm
  = (Resolved (flattened Sample.leaf [Sample.mid; Sample.root]), Scenario.warm).
Proof.
  assert (cachedChain Scenario.warm Sample.leaf [Sample.mid; Sample.root]) as Hch.
  { eapply cachedChain_step with (parentId := 2%Z); [reflexivity | reflexivity |].
    eapply cachedChain_step with (parentId := 1%Z); [reflexivity | reflexivity |].
    apply cachedChain_root. reflexivity. }
  split; [exact Hch|]. split; [simpl; lia|].
  apply (dataItemFromChildCase_cached "Survey" Sample.leaf [Sample.mid; Sample.root] 3
           Scenario.warm Hch).
  simpl. lia.
Defined.

(** X4.  Flattening the last case of a chain sends at most one request per
    ancestor, each a get of a case by id in the given context, and nothing
    else; it writes to the case store only, where it keeps every entry
    there was and leaves every ancestor of the chain cached. *)
Theorem dataItemFromChildCase_cost (context : string) (c : ReturnedCase.t)
    (ancestors : list ReturnedCase.t) (fuel : nat) (w : World) :
  chain w context c ancestors ->
  length ancestors < fuel ->
  exists w' calls,
    snd (dataItemFromChildCase fuel context c w) = w' /\
    trace w' = trace w ++ calls /\
    length calls <= length ancestors /\
    Forall (isCaseFetch context) calls /\
    Cache.contexts (cache w') = Cache.contexts (cache w) /\
    Cache.records (cache w') = Cache.records (cache w) /\
    Cache.cases (cache w) ⊆ Cache.cases (cache w') /\
    cachedChain w' c ancestors.
Proof.
  intros Hch Hfuel.
  destruct (dataItemFromChildCase_effects context ancestors fuel w c Hch Hfuel)
    as (w' & calls & Hrun & _ & Htrace & Hlen & Hall & Hctx & Hrec & Hsub & Hcached).
  exists w', calls. rewrite Hrun. auto 10.
Qed.

Lemma dataItemFromChildCase_cost_witness :
  chain Sample.world "Survey" Sample.leaf [Sample.mid; Sample.root] /\
  length [Sample.mid; Sample.root] < 3 /\
  exists w' calls,
    snd (dataItemFromChildCase 3 "Survey" Sample.leaf Sample.world) = w' /\
    trace w' = trace Sample.world ++ calls /\
    length calls <= length [Sample.mid; Sample.root] /\
    Forall (isCaseFetch "Survey") calls /\
    Cache.contexts (cache w') = Cache.contexts (cache Sample.world) /\
    Cache.records (cache w') = Cache.records (cache Sample.world) /\
    Cache.cases (cache Sample.world) ⊆ Cache.cases (cache w') /\
    cachedChain w' Sample.leaf [Sample.mid; Sample.root].
Proof.
  split; [exact sample_chain|]. split; [simpl; lia|].
  apply (dataItemFromChildCase_cost "Survey" Sample.leaf [Sample.mid; Sample.root] 3
           Sample.world sample_chain).
  simpl. lia.
Defined.

(** X5.  Flattening the same case a second time, in the world the first
    flattening left, resolves with the same record and costs nothing: no
    call goes out and the world stays as it is. *)
Theorem dataItemFromChildCase_twice (context : string) (c : ReturnedCase.t)
    (ancestors : list ReturnedCase.t) (fuel : nat) (w : World) :
  chain w context c ancestors ->
  length ancestors < fuel ->
  exists r w1,
    dataItemFromChildCase fuel context c w = (Resolved r, w1) /\
    dataItemFromChildCase fuel context c w1 = (Resolved r, w1).
Proof.
  intros Hch Hfuel.
  destruct (dataItemFromChildCase_effects context ancestors fuel w c Hch Hfuel)
    as (w1 & calls & Hrun & _ & _ & _ & _ & _ & _ & _ & Hcached).
  exists (flattened c ancestors), w1. split; [exact Hrun|].
  revert Hfuel. clear -Hcached. revert fuel.
  induction Hcached as [c Hroot|c parentId p rest Hpar Hget _ IH];
    intros [|fuel] Hfuel; simpl in Hfuel; try lia; simpl.
  - by rewrite Hroot.
  - rewrite Hpar. unfold getCaseById. run_M. rewrite Hget. simpl.
    rewrite IH by lia. reflexivity.
Qed.

Lemma dataItemFromChildCase_twice_witness :
  chain Sample.world "Survey" Sample.leaf [Sample.mid; Sample.root] /\
  length [Sample.mid; Sample.root] < 3 /\
  exists r w1,
    dataItemFromChildCase 3 "Survey" Sample.leaf Sample.world = (Resolved r, w1) /\
    dataItemFromChildCase 3 "Survey" Sample.leaf w1 = (Resolved r, w1).
Proof.
  split; [exact sample_chain|]. split; [simpl; lia|].
  apply (dataItemFromChildCase_twice "Survey" Sample.leaf [Sample.mid; Sample.root] 3
           Sample.world sample_chain).
  simpl. lia.
Defined.

Lemma orphan_lookup_ext w w' context c ancestors missing :
  (forall id, lookupById w' context id = lookupById w context id) ->
  orphan w context c ancestors missing -> orphan w' context c ancestors missing.
Proof.
  intros Hext Horphan. induction Horphan.
  - constructor; [assumption | by rewrite Hext].
  - econstructor; eauto. by rewrite Hext.
Qed.

Lemma getCaseById_missing w context id :
  lookupById w context id = None ->
  getCaseById context id w
  = (Rejected (Error ("Failed to get case in " +:+ context
                      +:+ " with id " +:+ pretty id)),
     withEvent (phone_call (Request Get (caseById context id))) w).
Proof.
  unfold lookupById, getCaseById. run_M.
  destruct (Cache.getCase id (cache w)); [discriminate|].
  by destruct (GetCaseResponse.success (getCaseResponse (host w) context id)).
Qed.

(** X6.  When the chain of parents of a case leads to a parent id that is
    neither cached nor returned by the host, flattening the case rejects
    with the error of [getCaseById] for that id: the failure of the fetch
    of any ancestor is the failure of the whole record. *)
Theorem dataItemFromChildCase_orphan (context : string) (c : ReturnedCase.t)
    (ancestors : list ReturnedCase.t) (missing : Z) (fuel : nat) (w : World) :
  orphan w context c ancestors missing ->
  length ancestors < fuel ->
  fst (dataItemFromChildCase fuel context c w)
  = Rejected (Error ("Failed to get case in " +:+ context
                     +:+ " with id " +:+ pretty missing)).
Proof.
  revert fuel w c. induction ancestors as [|p rest IH]; intros fuel w c Horphan Hfuel;
    destruct fuel as [|fuel]; simpl in Hfuel; try lia; inversion Horphan; subst.
  - simpl. rewrite H. unfold mbind, M_bind. by rewrite getCaseById_missing.
  - simpl. rewrite H1.
    destruct (getCaseById_found _ _ _ _ H3) as (w1 & Hget & _ & Hl1).
    unfold mbind, M_bind. rewrite Hget.
    assert (fst (dataItemFromChildCase fuel context p w1)
            = Rejected (Error ("Failed to get case in " +:+ context
                               +:+ " with id " +:+ pretty missing))) as Hrec.
    { apply IH; [by apply (orphan_lookup_ext w) | lia]. }
    destruct (dataItemFromChildCase fuel context p w1) as [o w2]. simpl in Hrec.
    by rewrite Hrec.
Qed.

Lemma dataItemFromChildCase_orphan_witness :
  orphan Sample.world "Survey" Scenario.stray [] 4 /\
  length (@nil ReturnedCase.t) < 1 /\
  fst (dataItemFromChildCase 1 "Survey" Scenario.stray Sample.world)
  = Rejected (Error ("Failed to get case in " +:+ "Survey" +:+ " with id " +:+ pretty 4%Z)).
Proof.
  assert (orphan Sample.world "Survey" Scenario.stray [] 4) as Horphan.
  { apply orphan_here; reflexivity. }
  split; [exact Horphan|]. split; [simpl; lia|].
  apply (dataItemFromChildCase_orphan "Survey" Scenario.stray [] 4 1 Sample.world Horphan).
  simpl. lia.
Defined.

(** X7.  When the parent ids of a case never end (every case reached has a
    parent that can be found, as for a case that is its own ancestor),
    flattening it settles for no amount of fuel: the recursion has no
    guard against a cycle. *)
Theorem dataItemFromChildCase_endless (P : ReturnedCase.t -> Prop) (context : string)
    (w : World) :
  (forall c, P c ->
     exists parentId p,
       ReturnedCase.parent c = Some parentId /\
       lookupById w context parentId = Some p /\ P p) ->
  forall fuel c, P c -> fst (dataItemFromChildCase fuel context c w) = Unsettled.
Proof.
  intros Hclosed fuel.
  assert (forall w' c,
            (forall id, lookupById w' context id = lookupById w context id) ->
            P c -> fst (dataItemFromChildCase fuel context c w') = Unsettled) as Hgen.
  { induction fuel as [|fuel IH]; intros w' c Hext HP; [reflexivity|].
    destruct (Hclosed c HP) as (parentId & p & Hpar & Hlook & HPp).
    simpl. rewrite Hpar. rewrite <- Hext in Hlook.
    destruct (getCaseById_found _ _ _ _ Hlook) as (w1 & Hget & _ & Hl1).
    unfold mbind, M_bind. rewrite Hget.
    assert (fst (dataItemFromChildCase fuel context p w1) = Unsettled) as Hrec.
    { apply IH; [|assumption]. intros id. by rewrite Hl1, Hext. }
    destruct (dataItemFromChildCase fuel context p w1) as [o w2]. simpl in Hrec.
    by rewrite Hrec. }
  intros c HP. by apply Hgen.
Qed.

Lemma dataItemFromChildCase_endless_witness :
  (forall c, c = Scenario.ouroboros ->
     exists parentId p,
       ReturnedCase.parent c = Some parentId /\
       lookupById Scenario.looping "Survey" parentId = Some p /\ p = Scenario.ouroboros) /\
  forall fuel c,
    c = Scenario.ouroboros ->
    fst (dataItemFromChildCase fuel "Survey" c Scenario.looping) = Unsettled.
Proof.
  assert (forall c, c = Scenario.ouroboros ->
            exists parentId p,
              ReturnedCase.parent c = Some parentId /\
              lookupById Scenario.looping "Survey" parentId = Some p /\
              p = Scenario.ouroboros) as Hclosed.
  { intros c ->. exists 8%Z, Scenario.ouroboros. repeat split. }
  split; [exact Hclosed|].
  exact (dataItemFromChildCase_endless (λ c, c = Scenario.ouroboros) "Survey"
           Scenario.looping Hclosed).
Defined.

(** ** The reconciler beyond one successful run *)

Section ReconcilerProperties.
Variable normalizeDataContext : DataContext.t -> DataContext.t.

(** X8.  When the context is not cached and the host does not return it,
    [updateContextWithDataSet] rejects with the error of [getDataContext]:
    the only request sent is the get of the context, no bundled call is
    submitted and the cache is left as it was. *)
Theorem updateContextWithDataSet_unknown_context (contextName : string)
    (dataset : Dataset.t) (w : World) :
  Cache.getContext contextName (cache w) = None ->
  GetContextResponse.success (getContextResponse (host w) contextName) = false ->
  updateContextWithDataSet normalizeDataContext contextName dataset w
  = (Rejected (Error ("Failed to get context " +:+ contextName)),
     {| host := host w;
        cache := cache w;
        trace := trace w ++ [phone_call (Request Get (resourceFromContext contextName))] |}).
Proof.
  intros Hmiss Hfail. unfold updateContextWithDataSet, getDataContext. run_M.
  by rewrite Hmiss, Hfail.
Qed.

End ReconcilerProperties.

Lemma updateContextWithDataSet_unknown_context_witness :
  Cache.getContext "Census" (cache Sample.world) = None /\
  GetContextResponse.success (getContextResponse (host Sample.world) "Census") = false /\
  updateContextWithDataSet Sample.normalizeDataContext "Census"
    (Dataset.mk [Sample.people] []) Sample.world
  = (Rejected (Error ("Failed to get context " +:+ "Census")),
     {| host := host Sample.world;
        cache := cache Sample.world;
        trace := trace Sample.world
                 ++ [phone_call (Request Get (resourceFromContext "Census"))] |}).
Proof.
  split; [reflexivity|]. split; [reflexivity|].
  apply (updateContextWithDataSet_unknown_context Sample.normalizeDataContext "Census"
           (Dataset.mk [Sample.people] []) Sample.world); reflexivity.
Defined.


(** X10.  Every request of the batch that [updateContextWithDataSet] builds
    addresses the context it was given, and the batch holds one request
    more than the context has collections when the requested collections
    are the current ones, twice their number and four otherwise. *)
Theorem reconcileRequests_shape (contextName : string) (context : DataContext.t)
    (dataset : Dataset.t) :
  Forall (λ request, requestContext request = contextName)
    (reconcileRequests contextName context dataset) /\
  length (reconcileRequests contextName context dataset)
  = if Util.collectionsEqual (DataContext.collections context)
         (map Util.fillCollectionWithDefaults (Dataset.collections dataset))
    then length (DataContext.collections context) + 1
    else 2 * length (DataContext.collections context) + 4.
Proof.
  unfold reconcileRequests.
  assert (forall f : Collection.t -> CodapRequest,
            (forall c, requestContext (f c) = contextName) ->
            Forall (λ request, requestContext request = contextName)
              (map f (DataContext.collections context))) as Hmap.
  { intros f Hf. apply Forall_forall. intros r Hin.
    apply list_elem_of_In, in_map_iff in Hin as (c & <- & _). apply Hf. }
  destruct (Util.collectionsEqual _ _); simpl.
  - split.
    + rewrite Forall_app, Forall_singleton. split; [by apply Hmap | reflexivity].
    + rewrite length_app, length_map. reflexivity.
  - split.
    + rewrite !Forall_app, !Forall_cons, Forall_app, !Forall_cons.
      repeat split; try (by apply Hmap); by constructor.
    + rewrite !length_app, !length_map. simpl. rewrite !length_app, !length_map. simpl. lia.
Qed.

(** ** The context name, there and back *)

Lemma prefix_append (s rest : string) : String.prefix s (s +:+ rest) = true.
Proof.
  apply String.prefix_correct.
  exact (substring_middle "" s rest).
Qed.

(** X11.  A resource made of a notice name without bracket followed by a
    context name in brackets is recognised as a notice of that kind, and
    the name the handler takes from it is that context name, brackets
    inside the name included. *)
Theorem contextNameOf_round_trip (notice name : string) :
  String.index 0 "[" notice = None ->
  startsWith (notice +:+ String "["%char (name +:+ "]")) notice = true /\
  contextNameOf (notice +:+ String "["%char (name +:+ "]")) = name.
Proof.
  intros Hnone. split.
  - apply prefix_append.
  - by apply contextNameOf_bracketed.
Qed.

Lemma contextNameOf_round_trip_witness :
  String.index 0 "[" "dataContextChangeNotice" = None /\
  startsWith ("dataContextChangeNotice" +:+ String "["%char ("a[b]" +:+ "]"))
    "dataContextChangeNotice" = true /\
  contextNameOf ("dataContextChangeNotice" +:+ String "["%char ("a[b]" +:+ "]")) = "a[b]".
Proof.
  split; [reflexivity|].
  apply (contextNameOf_round_trip "dataContextChangeNotice" "a[b]"). reflexivity.
Defined.

(** X12.  On a resource without any opening bracket the search yields -1,
    and the name the handler takes is the resource without its last
    character. *)
Theorem contextNameOf_without_bracket (resource : string) :
  String.index 0 "[" resource = None ->
  contextNameOf resource
  = String.substring 0 (String.length resource - 1) resource.
Proof.
  intros Hnone. unfold contextNameOf, search_bracket, slice. rewrite Hnone.
  destruct resource as [|a rest].
  - reflexivity.
  - remember (String a rest) as s eqn:Hs.
    assert (1 <= String.length s) as Hlen by (subst s; simpl; lia).
    change ((-1 + 1)%Z) with 0%Z. cbn [Z.ltb Z.compare].
    destruct (Z.ltb_spec (Z.of_nat (String.length s) - 1) 0); [lia|].
    replace (Z.to_nat (Z.min 0 (Z.of_nat (String.length s)))) with 0 by lia.
    replace (Z.to_nat _) with (String.length s - 1) by lia.
    reflexivity.
Qed.

Lemma contextNameOf_without_bracket_witness :
  String.index 0 "[" "dataContextChangeNotice" = None /\
  contextNameOf "dataContextChangeNotice" = "dataContextChangeNotic".
Proof.
  split; [reflexivity|].
  apply (contextNameOf_without_bracket "dataContextChangeNotice"). reflexivity.
Defined.

(** ** The handler: frame, failure and composition with the fetches *)

Lemma cacheWithin_refl (c : Cache.t) : cacheWithin c c.
Proof. unfold cacheWithin. by split; [|split]. Qed.

Lemma cacheWithin_trans (c1 c2 c3 : Cache.t) :
  cacheWithin c1 c2 -> cacheWithin c2 c3 -> cacheWithin c1 c3.
Proof.
  intros (? & ? & ?) (? & ? & ?). unfold cacheWithin. split; [|split]; by etrans.
Qed.

Lemma invalidateCase_within (id : Z) (c : Cache.t) :
  cacheWithin (Cache.invalidateCase id c) c.
Proof.
  unfold cacheWithin. simpl. split; [done|]. split; [apply delete_subseteq | done].
Qed.

Lemma invalidateContext_within (context : string) (c : Cache.t) :
  cacheWithin (Cache.invalidateContext context c) c.
Proof.
  unfold cacheWithin. simpl. split; [apply delete_subseteq|].
  split; [done | apply delete_subseteq].
Qed.

Lemma invalidated_cases_within (ids : list Z) (c : Cache.t) :
  cacheWithin (fold_left (λ c id, Cache.invalidateCase id c) ids c) c.
Proof.
  revert c. induction ids as [|id ids IH]; intros c; simpl.
  - apply cacheWithin_refl.
  - eapply cacheWithin_trans; [apply IH | apply invalidateCase_within].
Qed.

(** The loop over any batch, missing elements included: it sends nothing
    and calls nothing, and the cache only loses entries. *)
Lemma scanValues_frame (items : list (option JsObject.t)) :
  forall (contextUpdate contextListUpdate : bool) (w : World),
    exists o c',
      scanValues items contextUpdate contextListUpdate w
      = (o, {| host := host w; cache := c'; trace := trace w |}) /\
      cacheWithin c' (cache w) /\
      (hasMissingElement (array items) = true -> o = Rejected TypeError).
Proof.
  induction items as [|[value|] items IH]; intros cu clu w.
  - destruct w. eexists _, _. split; [reflexivity|]. split; [apply cacheWithin_refl|].
    discriminate.
  - simpl. unfold mbind, M_bind. rewrite invalidateCasesOf_run.
    destruct (IH (cu || includes mutatingOperations (JsObject.operation value))
                 (clu || is_operation (JsObject.operation value) UpdateContext)
                 {| host := host w;
                    cache := fold_left (λ c id, Cache.invalidateCase id c)
                               (listedCaseIDs value) (cache w);
                    trace := trace w |})
      as (o & c' & Hrun & Hwithin & Hthrow).
    rewrite Hrun. exists o, c'. split; [reflexivity|]. split; [|exact Hthrow].
    eapply cacheWithin_trans; [exact Hwithin | apply invalidated_cases_within].
  - destruct w. eexists _, _. split; [reflexivity|]. split; [apply cacheWithin_refl|].
    reflexivity.
Qed.

Section EndpointFurther.
Variables DocumentChangeNotice DataContextChangeNotice : string.

Local Abbreviation handler :=
  (codapRequestHandler DocumentChangeNotice DataContextChangeNotice).

(** X13.  Whatever the host sends and however the handler ends, the handler
    makes no call on the phone, and it adds nothing to the cache: every
    entry of the three stores afterwards was there before, unchanged. *)
Theorem codapRequestHandler_frame (command : CodapInitiatedCommand.t) (w : World) :
  exists events,
    host (snd (handler command w)) = host w /\
    trace (snd (handler command w)) = trace w ++ events /\
    Forall (λ e, isPhoneCall e = false) events /\
    cacheWithin (cache (snd (handler command w))) (cache w).
Proof.
  destruct command as [action resource values]. unfold codapRequestHandler.
  cbn [CodapInitiatedCommand.action CodapInitiatedCommand.resource
       CodapInitiatedCommand.values].
  destruct (bool_decide (action = Notify)); cbn [negb].
  2:{ exists [callback ok]. simpl. split; [reflexivity|]. split; [reflexivity|].
      split; [by repeat constructor | apply cacheWithin_refl]. }
  destruct (bool_decide (resource = DocumentChangeNotice));
    destruct (startsWith resource DataContextChangeNotice);
    destruct values as [|o|items];
    try (destruct o as [[[]|?|] ?]);
    try (eexists; simpl; rewrite <- ?app_assoc;
         split; [reflexivity|]; split; [reflexivity|];
         split; [by repeat constructor | apply cacheWithin_refl]);
    try (exists []; simpl; rewrite app_nil_r;
         split; [reflexivity|]; split; [reflexivity|];
         split; [constructor | apply cacheWithin_refl]).
  all: unfold mbind, M_bind, values_operation, resolve, mret, M_ret;
    destruct (scanValues_frame items false false w) as (o & c' & Hrun & Hwithin & _);
    rewrite Hrun; destruct o as [[[] []]|e|];
    unfold writeCache, emit, withEvent, withCache; cbn [host cache trace fst snd];
    try (exists []; rewrite app_nil_r;
         split; [reflexivity|]; split; [reflexivity|]; split; [constructor | exact Hwithin]);
    (eexists; rewrite <- ?app_assoc;
     split; [reflexivity|]; split; [reflexivity|];
     split; [by repeat constructor|]);
    try exact Hwithin;
    (eapply cacheWithin_trans; [apply invalidateContext_within | exact Hwithin]).
Qed.

(** X14.  On a command that makes it read a property of a missing value
    the handler throws a [TypeError] having called no listener and without
    calling the callback: the host gets no response to that message. *)
Theorem codapRequestHandler_throws (command : CodapInitiatedCommand.t) (w : World) :
  readsMissing DocumentChangeNotice DataContextChangeNotice command = true ->
  fst (handler command w) = Rejected TypeError /\
  trace (snd (handler command w)) = trace w.
Proof.
  destruct command as [action resource values]. unfold readsMissing, codapRequestHandler.
  cbn [CodapInitiatedCommand.action CodapInitiatedCommand.resource
       CodapInitiatedCommand.values].
  destruct (bool_decide (action = Notify)); [|discriminate]. cbn [negb andb].
  destruct (bool_decide (resource = DocumentChangeNotice));
    destruct (startsWith resource DataContextChangeNotice);
    destruct values as [|o|items]; simpl; try discriminate; try (by split).
  all: intros Hmiss; unfold mbind, M_bind, values_operation, resolve, mret, M_ret;
    destruct (scanValues_frame items false false w) as (o & c' & Hrun & _ & Hthrow);
    rewrite Hrun, (Hthrow Hmiss); by split.
Qed.
End EndpointFurther.

Lemma codapRequestHandler_throws_witness :
  readsMissing Sample.DocumentChangeNotice Sample.DataContextChangeNotice
    (CodapInitiatedCommand.mk Notify "dataContextChangeNotice[Survey]"
       (array [Some Sample.deleteCases; None; Some Sample.updateContext])) = true /\
  fst (codapRequestHandler Sample.DocumentChangeNotice Sample.DataContextChangeNotice
         (CodapInitiatedCommand.mk Notify "dataContextChangeNotice[Survey]"
            (array [Some Sample.deleteCases; None; Some Sample.updateContext]))
         Sample.cached)
  = Rejected TypeError /\
  trace (snd (codapRequestHandler Sample.DocumentChangeNotice
                Sample.DataContextChangeNotice
                (CodapInitiatedCommand.mk Notify "dataContextChangeNotice[Survey]"
                   (array [Some Sample.deleteCases; None; Some Sample.updateContext]))
                Sample.cached))
  = trace Sample.cached.
Proof.
  split; [reflexivity|].
  apply (codapRequestHandler_throws Sample.DocumentChangeNotice
           Sample.DataContextChangeNotice
           (CodapInitiatedCommand.mk Notify "dataContextChangeNotice[Survey]"
              (array [Some Sample.deleteCases; None; Some Sample.updateContext]))
           Sample.cached).
  reflexivity.
Defined.

Lemma existsb_Exists_true {A} (f : A -> bool) (l : list A) :
  Exists (λ x, f x = true) l -> existsb f l = true.
Proof.
  intros Hex. apply existsb_exists. apply Exists_exists in Hex as (x & Hin & Hx).
  exists x. split; [by apply list_elem_of_In | exact Hx].
Qed.

Lemma getCaseById_resolved_cached (context : string) (id : Z) (c : ReturnedCase.t)
    (w w1 : World) :
  getCaseById context id w = (Resolved c, w1) ->
  Cache.getCase id (cache w1) = Some c.
Proof.
  unfold getCaseById. run_M.
  destruct (Cache.getCase id (cache w)) as [c0|] eqn:Hc.
  - by intros [= -> <-].
  - destruct (GetCaseResponse.success (getCaseResponse (host w) context id));
      [|discriminate].
    intros [= <- <-]. simpl. unfold Cache.getCase, Cache.setCase. simpl.
    by rewrite lookup_insert_eq.
Qed.

Section Eviction.
Variable normalizeDataContext : DataContext.t -> DataContext.t.
Variables DocumentChangeNotice DataContextChangeNotice : string.

Local Abbreviation handler :=
  (codapRequestHandler DocumentChangeNotice DataContextChangeNotice).

(** X15.  After [getDataContext] has cached a context, a context-change
    notice for that context with at least one operation of
    [mutatingOperations] removes the entry, and the next [getDataContext]
    for the name asks the host again. *)
Theorem notification_evicts_context (contextName : string) (context : DataContext.t)
    (ops : list JsObject.t) (w w1 : World) :
  String.index 0 "[" DataContextChangeNotice = None ->
  getDataContext normalizeDataContext contextName w = (Resolved context, w1) ->
  Exists (λ o, includes mutatingOperations (JsObject.operation o) = true) ops ->
  exists w2,
    handler
      (CodapInitiatedCommand.mk Notify
         (DataContextChangeNotice +:+ String "["%char (contextName +:+ "]"))
         (array (map Some ops))) w1
    = (Resolved tt, w2) /\
    Cache.getContext contextName (cache w1) = Some context /\
    Cache.getContext contextName (cache w2) = None /\
    trace (snd (getDataContext normalizeDataContext contextName w2))
    = trace w2 ++ [phone_call (Request Get (resourceFromContext contextName))].
Proof.
  intros Hnotice Hget Hmut.
  destruct (getDataContext_resolved_cached _ _ _ _ _ Hget) as [Hcached _].
  rewrite codapRequestHandler_batch by apply prefix_append. cbv zeta.
  rewrite (existsb_Exists_true _ ops Hmut).
  rewrite contextNameOf_bracketed by assumption.
  eexists. split; [reflexivity|]. split; [exact Hcached|].
  assert (forall c, Cache.getContext contextName (Cache.invalidateContext contextName c) = None)
    as Hgone.
  { intros c. unfold Cache.getContext, Cache.invalidateContext. simpl.
    apply lookup_delete_eq. }
  split; [apply Hgone|].
  unfold getDataContext. run_M. rewrite Hgone.
  by destruct (GetContextResponse.success _).
Qed.

(** X16.  After [getCaseById] has resolved with a case, a context-change
    notice with a delete-cases or update-cases operation that lists the id
    removes the case from the store, whatever context the notice names, and
    the next [getCaseById] for the id asks the host again. *)
Theorem notification_evicts_case (context resource : string) (id : Z)
    (c : ReturnedCase.t) (ops : list JsObject.t) (w w1 : World) :
  startsWith resource DataContextChangeNotice = true ->
  getCaseById context id w = (Resolved c, w1) ->
  id ∈ concat (map listedCaseIDs ops) ->
  exists w2,
    handler (CodapInitiatedCommand.mk Notify resource (array (map Some ops))) w1
    = (Resolved tt, w2) /\
    Cache.getCase id (cache w1) = Some c /\
    Cache.getCase id (cache w2) = None /\
    trace (snd (getCaseById context id w2))
    = trace w2 ++ [phone_call (Request Get (caseById context id))].
Proof.
  intros Hprefix Hget Hlisted.
  pose proof (getCaseById_resolved_cached _ _ _ _ _ Hget) as Hcached.
  rewrite codapRequestHandler_batch by assumption. cbv zeta.
  eexists. split; [reflexivity|]. split; [exact Hcached|]. cbn [cache].
  assert (Cache.getCase id
            (if existsb (λ o, includes mutatingOperations (JsObject.operation o)) ops
             then Cache.invalidateContext (contextNameOf resource)
                    (fold_left (λ c id, Cache.invalidateCase id c)
                       (concat (map listedCaseIDs ops)) (cache w1))
             else fold_left (λ c id, Cache.invalidateCase id c)
                    (concat (map listedCaseIDs ops)) (cache w1)) = None) as Hgone.
  { transitivity (Cache.getCase id
                    (fold_left (λ c id, Cache.invalidateCase id c)
                       (concat (map listedCaseIDs ops)) (cache w1))).
    - by destruct (existsb _ ops).
    - rewrite invalidated_cases_lookup. by rewrite bool_decide_eq_true_2. }
  split; [exact Hgone|].
  unfold getCaseById. run_M. rewrite Hgone.
  by destruct (GetCaseResponse.success _).
Qed.

(** X17.  However many operations a context-change batch of objects holds,
    the handler calls the listeners of the context at most once, then the
    listeners of the context list at most once, then the callback once: the
    first when some operation is one of [mutatingOperations], the second
    when some operation is update-context, both when the batch mixes them. *)
Theorem listeners_once_per_batch (resource : string) (ops : list JsObject.t)
    (w : World) :
  startsWith resource DataContextChangeNotice = true ->
  trace (snd (handler
                (CodapInitiatedCommand.mk Notify resource (array (map Some ops))) w))
  = trace w
    ++ (if existsb (λ o, includes mutatingOperations (JsObject.operation o)) ops
        then [callUpdateListenersForContext (contextNameOf resource)] else [])
    ++ (if existsb (λ o, is_operation (JsObject.operation o) UpdateContext) ops
        then [callAllContextListeners] else [])
    ++ [callback ok].
Proof.
  intros Hprefix. by rewrite codapRequestHandler_batch by assumption.
Qed.

(** X18.  A notification whose values are not an array leaves the cache
    as it is and never reaches the listeners of a context, whatever its
    resource; the listeners of the context list are called exactly when
    the resource is the document-change notice and the operation is the
    change of the number of contexts; the callback is called once. *)
Theorem notification_without_array (resource : string) (o : JsObject.t) (w : World) :
  handler (CodapInitiatedCommand.mk Notify resource (object o)) w
  = (Resolved tt,
     {| host := host w;
        cache := cache w;
        trace := trace w
                 ++ (if bool_decide (resource = DocumentChangeNotice)
                     then match JsObject.operation o with
                          | operation_document DataContextCountChanged =>
                              [callAllContextListeners]
                          | _ => []
                          end
                     else [])
                 ++ [callback ok] |}).
Proof.
  unfold codapRequestHandler.
  cbn [CodapInitiatedCommand.action CodapInitiatedCommand.resource
       CodapInitiatedCommand.values].
  rewrite (bool_decide_eq_true_2 (Notify = Notify)) by reflexivity. cbn [negb].
  destruct (bool_decide (resource = DocumentChangeNotice));
    destruct (startsWith resource DataContextChangeNotice);
    destruct o as [[[]|?|] ?]; destruct w; unfold values_operation; run_M;
    unfold withEvent; simpl; rewrite <- ?app_assoc; reflexivity.
Qed.

(** X19.  Delete-cases and update-cases operations whose result is missing
    or lists no array of case ids remove nothing from the case store. *)
Theorem operations_without_case_ids (resource : string) (ops : list JsObject.t)
    (w : World) :
  startsWith resource DataContextChangeNotice = true ->
  Forall (λ o, JsObject.result o = None
               \/ exists r, JsObject.result o = Some r /\ Result.caseIDs r = None) ops ->
  Cache.cases
    (cache (snd (handler
                   (CodapInitiatedCommand.mk Notify resource (array (map Some ops))) w)))
  = Cache.cases (cache w).
Proof.
  intros Hprefix Hall. rewrite codapRequestHandler_batch by assumption. cbv zeta.
  cbn [snd cache].
  assert (concat (map listedCaseIDs ops) = []) as ->.
  { induction Hall as [|o ops Ho _ IH]; [reflexivity|].
    simpl. rewrite IH, app_nil_r. unfold listedCaseIDs.
    destruct (JsObject.operation o) as [?|[]|]; try reflexivity;
      destruct Ho as [-> | (r & -> & ->)]; reflexivity. }
  by destruct (existsb _ ops).
Qed.
End Eviction.

Lemma notification_evicts_context_witness :
  String.index 0 "[" Sample.DataContextChangeNotice = None /\
  getDataContext Sample.normalizeDataContext "Survey" Sample.world
  = (Resolved Sample.stored,
     snd (getDataContext Sample.normalizeDataContext "Survey" Sample.world)) /\
  Exists (λ o, includes mutatingOperations (JsObject.operation o) = true)
    [Scenario.selectCases; Sample.createAttribute] /\
  exists w2,
    codapRequestHandler Sample.DocumentChangeNotice Sample.DataContextChangeNotice
      (CodapInitiatedCommand.mk Notify
         (Sample.DataContextChangeNotice +:+ String "["%char ("Survey" +:+ "]"))
         (array (map Some [Scenario.selectCases; Sample.createAttribute])))
      (snd (getDataContext Sample.normalizeDataContext "Survey" Sample.world))
    = (Resolved tt, w2) /\
    Cache.getContext "Survey"
      (cache (snd (getDataContext Sample.normalizeDataContext "Survey" Sample.world)))
    = Some Sample.stored /\
    Cache.getContext "Survey" (cache w2) = None /\
    trace (snd (getDataContext Sample.normalizeDataContext "Survey" w2))
    = trace w2 ++ [phone_call (Request Get (resourceFromContext "Survey"))].
Proof.
  assert (Exists (λ o, includes mutatingOperations (JsObject.operation o) = true)
            [Scenario.selectCases; Sample.createAttribute]) as Hmut.
  { apply Exists_cons_tl, Exists_cons_hd. reflexivity. }
  split; [reflexivity|]. split; [reflexivity|]. split; [exact Hmut|].
  apply (notification_evicts_context Sample.normalizeDataContext
           Sample.DocumentChangeNotice Sample.DataContextChangeNotice
           "Survey" Sample.stored [Scenario.selectCases; Sample.createAttribute]
           Sample.world); [reflexivity | reflexivity | exact Hmut].
Defined.

Lemma notification_evicts_case_witness :
  startsWith "dataContextChangeNotice[Census]" Sample.DataContextChangeNotice = true /\
  getCaseById "Survey" 7 Sample.cached = (Resolved Sample.leaf, Sample.cached) /\
  7%Z ∈ concat (map listedCaseIDs [Scenario.updateCase7]) /\
  exists w2,
    codapRequestHandler Sample.DocumentChangeNotice Sample.DataContextChangeNotice
      (CodapInitiatedCommand.mk Notify "dataContextChangeNotice[Census]"
         (array (map Some [Scenario.updateCase7]))) Sample.cached
    = (Resolved tt, w2) /\
    Cache.getCase 7 (cache Sample.cached) = Some Sample.leaf /\
    Cache.getCase 7 (cache w2) = None /\
    trace (snd (getCaseById "Survey" 7 w2))
    = trace w2 ++ [phone_call (Request Get (caseById "Survey" 7))].
Proof.
  assert (7%Z ∈ concat (map listedCaseIDs [Scenario.updateCase7])) as Hlisted.
  { simpl. apply elem_of_cons. by left. }
  split; [reflexivity|]. split; [reflexivity|]. split; [exact Hlisted|].
  apply (notification_evicts_case Sample.DocumentChangeNotice
           Sample.DataContextChangeNotice "Survey" "dataContextChangeNotice[Census]"
           7 Sample.leaf [Scenario.updateCase7] Sample.cached Sample.cached);
    [reflexivity | reflexivity | exact Hlisted].
Defined.

Lemma listeners_once_per_batch_witness :
  startsWith "dataContextChangeNotice[Survey]" Sample.DataContextChangeNotice = true /\
  trace (snd (codapRequestHandler Sample.DocumentChangeNotice
                Sample.DataContextChangeNotice
                (CodapInitiatedCommand.mk Notify "dataContextChangeNotice[Survey]"
                   (array (map Some [Sample.deleteCases; Sample.updateContext;
                                     Sample.createAttribute; Sample.updateContext])))
                Sample.cached))
  = trace Sample.cached
    ++ [callUpdateListenersForContext "Survey"] ++ [callAllContextListeners]
    ++ [callback ok].
Proof.
  split; [reflexivity|].
  apply (listeners_once_per_batch Sample.DocumentChangeNotice
           Sample.DataContextChangeNotice "dataContextChangeNotice[Survey]"
           [Sample.deleteCases; Sample.updateContext;
            Sample.createAttribute; Sample.updateContext] Sample.cached).
  reflexivity.
Defined.

Lemma operations_without_case_ids_witness :
  startsWith "dataContextChangeNotice[Survey]" Sample.DataContextChangeNotice = true /\
  Forall (λ o, JsObject.result o = None
               \/ exists r, JsObject.result o = Some r /\ Result.caseIDs r = None)
    [Scenario.updateCasesWithoutResult] /\
  Cache.cases
    (cache (snd (codapRequestHandler Sample.DocumentChangeNotice
                   Sample.DataContextChangeNotice
                   (CodapInitiatedCommand.mk Notify "dataContextChangeNotice[Survey]"
                      (array (map Some [Scenario.updateCasesWithoutResult])))
                   Sample.cached)))
  = Cache.cases (cache Sample.cached).
Proof.
  assert (Forall (λ o, JsObject.result o = None
                       \/ exists r, JsObject.result o = Some r /\ Result.caseIDs r = None)
            [Scenario.updateCasesWithoutResult]) as Hall.
  { constructor; [by left | constructor]. }
  split; [reflexivity|]. split; [exact Hall|].
  apply (operations_without_case_ids Sample.DocumentChangeNotice
           Sample.DataContextChangeNotice "dataContextChangeNotice[Survey]"
           [Scenario.updateCasesWithoutResult] Sample.cached); [reflexivity | exact Hall].
Defined.

(** ** The list and creation calls *)

Section ListsProperties.
Variable remote : Remote.

(** X20.  [createContextWithDataset] sends the creation of the context,
    titled with the name when no title is given, and stops there with the
    error of the creation when the host refuses it: no item is inserted.
    When the host accepts, the items are inserted into the context under the
    name the host returned, not the name that was asked for; if that
    insertion fails the promise rejects with its error and nothing is sent
    to undo the creation. *)
Theorem createContextWithDataset_steps (dataset : Dataset.t) (name : string)
    (title : option string) (log : list Payload.t) :
  let titleSent := match title with Some title => title | None => name end in
  let creation :=
    Payload.mk Create CodapResource_DataContext
      (context_values name titleSent (Dataset.collections dataset)) in
  let created := createContextResponse remote name titleSent (Dataset.collections dataset) in
  let returned := CodapIdentifyingInfo.name (CreateContextResponse.values created) in
  (CreateContextResponse.success created = false ->
   createContextWithDataset remote dataset name title log
   = (Rejected (Error "Failed to create dataset"), log ++ [creation])) /\
  (CreateContextResponse.success created = true ->
   createContextWithDataset remote dataset name title log
   = (if success (createItemsResponse remote returned (Dataset.records dataset))
      then Resolved (CreateContextResponse.values created)
      else Rejected (Error "Failed to create dataset with data"),
      log ++ [creation;
              Payload.mk Create (itemFromContext returned)
                (item_values (Dataset.records dataset))])).
Proof.
  cbv zeta.
  unfold createContextWithDataset, createDataContext, insertDataItems, send, failed,
    mbind, Calls_bind, mret, Calls_ret.
  split; intros Hcreated; rewrite Hcreated.
  - reflexivity.
  - destruct (success (createItemsResponse remote _ _));
      by rewrite <- app_assoc.
Qed.

(** X21.  [getAllAttributes] asks for the collections of the context and
    stops with that error when the host refuses; otherwise it sends one
    request per collection, in the order of the collections, all of them
    whatever the answers, and resolves with the attributes of the
    collections concatenated in that order when every answer is a success,
    and rejects when one is not. *)
Theorem getAllAttributes_steps (context : string) (log : list Payload.t) :
  let listed := collectionListResponse remote context in
  let collections := map CodapIdentifyingInfo.name (GetDataListResponse.values listed) in
  let responses := map (attributeListResponse remote context) collections in
  (GetDataListResponse.success listed = false ->
   getAllAttributes remote context log
   = (Rejected (Error "Failed to get collections."),
      log ++ [Payload.mk Get (collectionListFromContext context) no_values])) /\
  (GetDataListResponse.success listed = true ->
   getAllAttributes remote context log
   = (if forallb GetDataListResponse.success responses
      then Resolved (concat (map GetDataListResponse.values responses))
      else Rejected (Error "Failed to get attributes."),
      log ++ Payload.mk Get (collectionListFromContext context) no_values
             :: map (λ collectionName,
                       Payload.mk Get (attributeListFromCollection context collectionName)
                         no_values)
                    collections)).
Proof.
  cbv zeta.
  unfold getAllAttributes, getAllCollections, send, sendAll, failed,
    mbind, Calls_bind, mret, Calls_ret.
  split; intros Hlisted; rewrite Hlisted.
  - reflexivity.
  - destruct (forallb _ _); by rewrite <- app_assoc.
Qed.
End ListsProperties.

Lemma createContextWithDataset_steps_witness :
  (CreateContextResponse.success
     (createContextResponse Scenario.remote "" "" [Sample.people]) = false /\
   createContextWithDataset Scenario.remote (Dataset.mk [Sample.people] []) "" None []
   = (Rejected (Error "Failed to create dataset"),
      [Payload.mk Create CodapResource_DataContext
         (context_values "" "" [Sample.people])])) /\
  (CreateContextResponse.success
     (createContextResponse Scenario.remote "Survey" "Survey" [Sample.people]) = true /\
   createContextWithDataset Scenario.remote (Dataset.mk [Sample.people] []) "Survey" None []
   = (Resolved (CodapIdentifyingInfo.mk "Survey 1" "Survey"),
      [Payload.mk Create CodapResource_DataContext
         (context_values "Survey" "Survey" [Sample.people]);
       Payload.mk Create (itemFromContext "Survey 1") (item_values [])])).
Proof.
  split; (split; [reflexivity|]).
  - apply (proj1 (createContextWithDataset_steps Scenario.remote
                    (Dataset.mk [Sample.people] []) "" None [])). reflexivity.
  - apply (proj2 (createContextWithDataset_steps Scenario.remote
                    (Dataset.mk [Sample.people] []) "Survey" None [])). reflexivity.
Defined.

Lemma getAllAttributes_steps_witness :
  (GetDataListResponse.success (collectionListResponse Scenario.remote "Census") = false /\
   getAllAttributes Scenario.remote "Census" []
   = (Rejected (Error "Failed to get collections."),
      [Payload.mk Get (collectionListFromContext "Census") no_values])) /\
  (GetDataListResponse.success (collectionListResponse Scenario.remote "Survey") = true /\
   getAllAttributes Scenario.remote "Survey" []
   = (Resolved [Scenario.info "name"; Scenario.info "age"; Scenario.info "pet"],
      [Payload.mk Get (collectionListFromContext "Survey") no_values;
       Payload.mk Get (attributeListFromCollection "Survey" "people") no_values;
       Payload.mk Get (attributeListFromCollection "Survey" "pets") no_values])).
Proof.
  split; (split; [reflexivity|]).
  - apply (proj1 (getAllAttributes_steps Scenario.remote "Census" [])). reflexivity.
  - apply (proj2 (getAllAttributes_steps Scenario.remote "Survey" [])). reflexivity.
Defined.
